(** * repo2docker/buildpacks/conda/freeze.py

    A shallow embedding of the script that regenerates the per-Python
    environment manifests ([set_python]) and freezes them with conda-lock
    ([freeze]), together with its command line and main loop.

    The script is sequential I/O code.  It is embedded as state passing over
    a [world] (the files, the clock and a trace of what the process did) in a
    small state-and-exception monad.  What the script takes from the Python
    standard library, from ruamel.yaml and from the conda-lock executable is
    a parameter of the development (class [Runtime]). *)

From Stdlib Require Import ZArith Ascii.
From stdpp Require Import gmap strings list.

Set Warnings "-register-all".
Set Default Proof Using "Type*".

(** ** Text: the [str] operations the script uses *)

Module Text.

Definition LF : ascii := "010"%char.
Definition CR : ascii := "013"%char.

(** [s.startswith(p)] *)
Fixpoint startswith (p s : string) : bool :=
  match p, s with
  | EmptyString, _ => true
  | String _ _, EmptyString => false
  | String a p', String b s' => if decide (a = b) then startswith p' s' else false
  end.

(** [needle in hay] on strings: [needle] occurs as a substring of [hay]. *)
Fixpoint contains (needle hay : string) : bool :=
  startswith needle hay ||
  match hay with
  | EmptyString => false
  | String _ hay' => contains needle hay'
  end.

(** [f.readline()] on a file just opened in text mode, as a function of the
    file's content.  Text mode reads with universal newlines: a line ends at
    the first LF, CR or CR LF, and the terminator is handed over as one LF.
    The last line of a file may lack a terminator; an empty file gives the
    empty string. *)
Fixpoint readline (content : string) : string :=
  match content with
  | EmptyString => EmptyString
  | String c rest =>
      if decide (c = LF) then String LF EmptyString
      else if decide (c = CR) then String LF EmptyString
      else String c (readline rest)
  end.

(** [f.read()] on a file just opened in text mode, as a function of the
    file's content: the whole text, with every line end (LF, CR or CR LF)
    handed over as one LF. *)
Fixpoint read (content : string) : string :=
  match content with
  | EmptyString => EmptyString
  | String c rest =>
      if decide (c = CR) then
        String LF (match rest with
                   | EmptyString => EmptyString
                   | String c' rest' => if decide (c' = LF) then read rest' else read rest
                   end)
      else String c (read rest)
  end.

(** [s.split(sep)] for a separator of one character: the list of the pieces
    between the occurrences of [sep]; never empty. *)
Fixpoint split (sep : ascii) (s : string) : list string :=
  match s with
  | EmptyString => [EmptyString]
  | String c rest =>
      if decide (c = sep) then EmptyString :: split sep rest
      else match split sep rest with
           | piece :: pieces => String c piece :: pieces
           | [] => [String c EmptyString]
           end
  end.

(** [l[0]] on a list of strings; [None] is Python's IndexError. *)
Definition item0 (l : list string) : option string := l !! 0.

(** The characters of [s] before its first occurrence of [sep] (all of [s]
    when [sep] does not occur). *)
Fixpoint before (sep : ascii) (s : string) : string :=
  match s with
  | EmptyString => EmptyString
  | String c rest =>
      if decide (c = sep) then EmptyString else String c (before sep rest)
  end.

End Text.

(** ** The world the script runs in *)

(** The exceptions the script can end with. *)
Inductive exn : Type :=
  | ValueError
  | AttributeError
  | KeyError
  | TypeError
  | IndexError
  | FileNotFoundError
  | SameFileError
  | CalledProcessError (returncode : Z)
  | YAMLError.

(** What the process does that is seen from outside: lines printed, commands
    executed, files written (with the text the file is left with when its
    handle is closed), files copied. *)
Inductive event : Type :=
  | Printed (line : string)
  | Executed (argv : list string)
  | Wrote (p text : string)
  | Copied (src dst : string).

(** Files are text files, keyed by the path they are opened with.  A file
    that is open for writing has a handle, which holds the text written
    through it until the handle is closed.  The clock counts seconds.  The
    trace is in the order things happened. *)
Record world : Type := World {
  files : gmap string string;
  handles : gmap string string;
  clock : nat;
  trace : list event
}.

Inductive outcome (A : Type) : Type :=
  | Return (a : A)
  | Raise (e : exn).
Arguments Return {A} a.
Arguments Raise {A} e.

(** A piece of the script: it runs in a world, returns or raises, and leaves a
    world.  An exception keeps what was done before it was raised. *)
Definition script (A : Type) : Type := world → outcome A * world.

Definition ret {A : Type} (a : A) : script A := λ w, (Return a, w).

Definition bind {A B : Type} (c : script A) (k : A → script B) : script B := λ w,
  match c w with
  | (Return a, w') => k a w'
  | (Raise e, w') => (Raise e, w')
  end.

Declare Scope script_scope.
Delimit Scope script_scope with script.
Bind Scope script_scope with script.
Notation "x <- c ; k" := (bind c (λ x, k))
  (at level 100, c at next level, right associativity) : script_scope.
Notation "c ;; k" := (bind c (λ _, k))
  (at level 100, right associativity) : script_scope.
Local Open Scope script_scope.

Definition raise {A : Type} (e : exn) : script A := λ w, (Raise e, w).

(** An operation of a library that returns or raises without touching the world. *)
Definition lift {A : Type} (r : outcome A) : script A := λ w, (r, w).

(** [for x in xs: body(x)] *)
Fixpoint for_each {A : Type} (xs : list A) (body : A → script unit) : script unit :=
  match xs with
  | [] => ret tt
  | x :: xs' => body x ;; for_each xs' body
  end.

Definition log (e : event) (w : world) : world :=
  {| files := files w; handles := handles w; clock := clock w;
     trace := trace w ++ [e] |}.

Definition with_files (fs : gmap string string) (w : world) : world :=
  {| files := fs; handles := handles w; clock := clock w; trace := trace w |}.

Definition with_handles (hs : gmap string string) (w : world) : world :=
  {| files := files w; handles := hs; clock := clock w; trace := trace w |}.

(** [print(line)] *)
Definition print (line : string) : script unit := λ w, (Return tt, log (Printed line) w).

(** [p.exists()], [os.path.exists(p)] *)
Definition path_exists (p : string) : script bool := λ w,
  (Return (bool_decide (is_Some (files w !! p))), w).

(** [open(p)]: the text behind a handle on [p] just opened for reading, with
    the line ends the file has; what is read through the handle is
    [Text.readline] or [Text.read] of it. *)
Definition open_r (p : string) : script string := λ w,
  match files w !! p with
  | Some content => (Return content, w)
  | None => (Raise FileNotFoundError, w)
  end.

(** [open(p, "w")] creates [p] or cuts it to length zero, and gives a handle. *)
Definition open_w (p : string) : script unit := λ w,
  (Return tt, with_handles (<[p := EmptyString]> (handles w))
                (with_files (<[p := EmptyString]> (files w)) w)).

(** [f.write(text)] on the handle of [p]; writing through a closed handle is a
    ValueError. *)
Definition write (p text : string) : script unit := λ w,
  match handles w !! p with
  | Some written => (Return tt, with_handles (<[p := written +:+ text]> (handles w)) w)
  | None => (Raise ValueError, w)
  end.

(** [f.close()]: what was written reaches the file. *)
Definition close (p : string) : script unit := λ w,
  match handles w !! p with
  | Some written =>
      (Return tt, log (Wrote p written)
                    (with_handles (delete p (handles w))
                       (with_files (<[p := written]> (files w)) w)))
  | None => (Return tt, w)
  end.

(** [with open(p, "w") as f: body]: the handle is closed when the block is
    left, also when it is left by an exception. *)
Definition with_open_w {A : Type} (p : string) (body : script A) : script A := λ w,
  match open_w p w with
  | (Return _, w1) =>
      match body w1 with
      | (r, w2) => (r, snd (close p w2))
      end
  | (Raise e, w1) => (Raise e, w1)
  end.

(** [os.remove(p)] *)
Definition os_remove (p : string) : script unit := λ w,
  match files w !! p with
  | Some _ => (Return tt, with_files (delete p (files w)) w)
  | None => (Raise FileNotFoundError, w)
  end.

(** [shutil.copy(src, dst)] between files *)
Definition shutil_copy (src dst : string) : script unit := λ w,
  match files w !! src with
  | None => (Raise FileNotFoundError, w)
  | Some content =>
      if decide (src = dst) then (Raise SameFileError, w)
      else (Return tt, log (Copied src dst) (with_files (<[dst := content]> (files w)) w))
  end.

(** ** YAML documents *)

(** A node of a loaded document.  Only string scalars are Python strings. *)
Inductive node : Type :=
  | Str (s : string)
  | Scalar (repr : string)
  | Seq (items : list node)
  | Map (entries : list (string * node)).

(** The environment manifest as the script uses it: a mapping with a sequence
    under the key [dependencies], and whatever else the document holds. *)
Record manifest : Type := Manifest {
  dependencies : list node;
  others : list (string * node)
}.

(** ** What the script takes from its surroundings *)

(** How a child process ends: it could not be started, or it ran, left the
    files [fs] at time [now] and exited with [status]. *)
Inductive proc_result : Type :=
  | NotStarted
  | Exited (status : Z) (fs : gmap string string) (now : nat).

(** Paths are handled as the strings [str(path)].  [HERE] is the directory of
    the script, fixed when the module is loaded. *)
Class Runtime : Type := {
  (** [HERE / p] *)
  HERE_join : string → string;
  (** [p.relative_to(HERE)]; [None] is the ValueError for a path that is not
      below [HERE] *)
  relative_to_HERE : string → option string;
  (** [pathlib.Path(s)] *)
  Path : string → string;
  (** [os.path.splitext(p)[0]] *)
  splitext0 : string → string;
  (** [template.format(key=value)] *)
  format : string → string → string → outcome string;
  (** [f"{t:%Y-%m-%d %H:%M:%S UTC}"] for the time [t] *)
  strftime_utc : nat → string;
  (** running a command line to its end, from given files at a given time *)
  run : list string → gmap string string → nat → proc_result;
  (** [yaml.load] of the text read from the manifest, together with the
      look-up [env["dependencies"]] of line 94: the document as the script
      uses it, or the exception of either (KeyError for a mapping that has
      no [dependencies], TypeError for a document that is not a mapping) *)
  yaml_load : string → outcome manifest;
  (** [yaml.dump] of the round-trip YAML object *)
  yaml_dump : manifest → string;
  (** [(HERE / "environment.yml").relative_to(HERE)] is [environment.yml] *)
  relative_to_HERE_join :
    relative_to_HERE (HERE_join "environment.yml") = Some "environment.yml"
}.

(** ** The script *)

Section Script.
Context `{Runtime}.

(** [f"{datetime.utcnow():%Y-%m-%d %H:%M:%S UTC}"] *)
Definition utcnow : script string := λ w, (Return (strftime_utc (clock w)), w).

(** [p.relative_to(HERE)] inside an f-string *)
Definition relative_to (p : string) : script string :=
  match relative_to_HERE p with
  | Some rel => ret rel
  | None => raise ValueError
  end.

(** [subprocess.check_call(argv)]: run the command and wait; a command that
    cannot be started is an OSError, an exit status other than 0 a
    CalledProcessError. *)
Definition check_call (argv : list string) : script unit := λ w,
  match run argv (files w) (clock w) with
  | NotStarted => (Raise FileNotFoundError, log (Executed argv) w)
  | Exited status fs now =>
      let w' := {| files := fs; handles := handles w; clock := now;
                   trace := trace w ++ [Executed argv] |} in
      if decide (status = 0%Z) then (Return tt, w')
      else (Raise (CalledProcessError status), w')
  end.

(** Module constants (lines 24 to 27). *)
Definition ENV_FILE : string := HERE_join "environment.yml".
Definition FROZEN_FILE_T : string := splitext0 ENV_FILE +:+ "-{platform}.lock".
Definition ENV_FILE_T : string := HERE_join "environment.py-{py}.yml".

(** *** freeze (lines 32 to 79) *)

(** The command line of conda-lock (lines 59 to 68). *)
Definition conda_lock (env_file frozen_template platform : string) : list string :=
  [ "conda-lock"; "--mamba"; "--kind=explicit";
    "--platform=" +:+ platform;
    "--filename-template=" +:+ frozen_template;
    "--file=" +:+ env_file ].

Definition EOL : string := String Text.LF "".

(** The first line of a written file (lines 73 and 103). *)
Definition generated_from (rel : string) : string :=
  "# AUTO GENERATED FROM " +:+ rel +:+ ", DO NOT MANUALLY MODIFY" +:+ EOL.

(** Lines 51 to 79: what [freeze] does once it has decided to freeze. *)
Definition refreeze (env_file frozen_file platform : string) : script unit :=
  let frozen_dest := HERE_join frozen_file in
  print ("Freezing " +:+ env_file +:+ " -> " +:+ frozen_file) ;;
  let frozen_template := frozen_dest +:+ ".{platform}" in
  formatted <- lift (format frozen_template "platform" platform) ;
  let frozen_tempfile := Path formatted in
  check_call (conda_lock env_file frozen_template platform) ;;
  with_open_w frozen_dest (
    rel <- relative_to env_file ;
    write frozen_dest (generated_from rel) ;;
    stamp <- utcnow ;
    write frozen_dest ("# Frozen on " +:+ stamp +:+ EOL) ;;
    temp <- open_r frozen_tempfile ;
    write frozen_dest (Text.read temp)) ;;
  os_remove frozen_tempfile.

(** Lines 43 to 50: whether [freeze] returns at line 50. *)
Definition not_refreezing (frozen_file : string) : script bool :=
  let frozen_dest := HERE_join frozen_file in
  present <- path_exists frozen_dest ;
  if present then
    content <- open_r frozen_dest ;
    let line := Text.readline content in
    if negb (Text.contains "GENERATED" line) then
      rel <- relative_to frozen_file ;
      print (rel +:+ " not autogenerated, not refreezing") ;;
      ret true
    else ret false
  else ret false.

Definition freeze (env_file frozen_file platform : string) : script unit :=
  returned <- not_refreezing frozen_file ;
  if returned then ret tt else refreeze env_file frozen_file platform.

(** *** set_python (lines 82 to 106) *)

(** The loop of lines 94 to 99, to the index it breaks at.  Running off the
    end of the list is the [else] of the [for]; a dependency that is not a
    string has no [split]. *)
Fixpoint find_python (idx : nat) (deps : list node) : outcome nat :=
  match deps with
  | [] => Raise ValueError
  | Str dep :: rest =>
      match Text.item0 (Text.split "="%char dep) with
      | Some name =>
          if decide (name = "python") then Return idx
          else find_python (S idx) rest
      | None => Raise IndexError
      end
  | _ :: _ => Raise AttributeError
  end.

(** Lines 91 to 106: what [set_python] does once it has decided to write. *)
Definition regenerate (py_env_file py : string) : script unit :=
  print ("Regenerating " +:+ py_env_file +:+ " from " +:+ ENV_FILE) ;;
  f <- open_r ENV_FILE ;
  env <- lift (yaml_load (Text.read f)) ;
  idx <- lift (find_python 0 (dependencies env)) ;
  let env' := {| dependencies := <[idx := Str ("python=" +:+ py +:+ ".*")]> (dependencies env);
                 others := others env |} in
  with_open_w py_env_file (
    rel <- relative_to ENV_FILE ;
    write py_env_file (generated_from rel) ;;
    stamp <- utcnow ;
    write py_env_file ("# Generated on " +:+ stamp +:+ EOL) ;;
    write py_env_file (yaml_dump env')).

(** Lines 84 to 89: whether [set_python] returns at line 89. *)
Definition not_regenerating (py_env_file : string) : script bool :=
  present <- path_exists py_env_file ;
  if present then
    content <- open_r py_env_file ;
    let text := Text.readline content in
    if negb (Text.contains "GENERATED" text) then ret true else ret false
  else ret false.

Definition set_python (py_env_file py : string) : script unit :=
  returned <- not_regenerating py_env_file ;
  if returned then ret tt else regenerate py_env_file py.

(** *** The command line (lines 110 to 128) *)

(** A positional argument declared with [nargs="*"]. *)
Record positional : Type := Positional {
  dest : string;
  default_value : list string
}.

(** argparse gives the positional arguments of the command line to the
    declared positionals by matching one regular expression, a greedy
    starred group per [nargs="*"] positional, in the order of declaration:
    the first group takes every argument and each later one takes none. *)
Fixpoint consume_positionals (actions : list positional) (args : list string)
  : list (positional * list string) :=
  match actions with
  | [] => []
  | action :: later => (action, args) :: consume_positionals later []
  end.

(** The value of a [nargs="*"] positional: the strings it was given, or its
    default when it was given none. *)
Definition get_values (action : positional) (given : list string) : list string :=
  match given with
  | [] => default_value action
  | _ :: _ => given
  end.

Definition arguments : list positional :=
  [ Positional "py" ["3.7"; "3.8"; "3.9"; "3.10"];
    Positional "platform" ["linux-64"; "linux-aarch64"] ].

(** [parser.parse_args()] on a command line of positional arguments: the
    attributes of the namespace, by name. *)
Definition parse_args (argv : list string) : list (string * list string) :=
  (λ '(action, given), (dest action, get_values action given))
    <$> consume_positionals arguments argv.

(** [args.py], [args.platform]: an attribute of the namespace. *)
Fixpoint getattr (args : list (string * list string)) (name : string)
  : outcome (list string) :=
  match args with
  | [] => Raise AttributeError
  | (key, value) :: rest =>
      if decide (key = name) then Return value else getattr rest name
  end.

(** *** The main loop (lines 129 to 137) *)

Definition default_py : string := "3.7".

Definition iteration (py platform : string) : script unit :=
  formatted <- lift (format ENV_FILE_T "py" py) ;
  let env_file := Path formatted in
  set_python env_file py ;;
  let frozen_file := Path (splitext0 env_file +:+ ("-" +:+ platform +:+ ".lock")) in
  freeze env_file frozen_file platform ;;
  if decide (py = default_py) then
    target <- lift (format FROZEN_FILE_T "platform" platform) ;
    shutil_copy frozen_file target
  else ret tt.

Definition main (argv : list string) : script unit :=
  let args := parse_args argv in
  pys <- lift (getattr args "py") ;
  for_each pys (λ py,
    platforms <- lift (getattr args "platform") ;
    for_each platforms (λ platform,
      iteration py platform)).

End Script.

(** ** What is observed of a run *)

(** The first line of [content] contains the literal marker. *)
Definition generated (content : string) : bool :=
  Text.contains "GENERATED" (Text.readline content).

(** The files a piece of the script wrote: the [Wrote] events of a trace. *)
Definition writes (evs : list event) : list (string * string) :=
  omap (λ e, match e with Wrote p text => Some (p, text) | _ => None end) evs.

(** The commands a piece of the script executed. *)
Definition commands (evs : list event) : list (list string) :=
  omap (λ e, match e with Executed argv => Some argv | _ => None end) evs.

(** The copies a piece of the script made. *)
Definition copies (evs : list event) : list (string * string) :=
  omap (λ e, match e with Copied src dst => Some (src, dst) | _ => None end) evs.

(** The target [p] may be overwritten: it does not exist, or its first line
    has the marker. *)
Definition overwritable (fs : gmap string string) (p : string) : bool :=
  match fs !! p with
  | Some content => generated content
  | None => true
  end.

(** A dependency on python: a string whose text before its first [=] is
    [python]. *)
Definition pins_python (dep : node) : Prop :=
  ∃ s, dep = Str s ∧ Text.before "="%char s = "python".

Definition is_string (dep : node) : Prop := ∃ s, dep = Str s.

(** A dependency the search of [set_python] passes over: a string whose text
    before its first [=] is not [python]. *)
Definition passed_over (dep : node) : Prop :=
  ∃ s, dep = Str s ∧ Text.before "="%char s ≠ "python".

Section Texts.
Context `{Runtime}.

(** The text of a manifest the script writes at time [now]: the two comment
    lines, then the document [env]. *)
Definition generated_text (env : manifest) (now : nat) : string :=
  generated_from "environment.yml"
  +:+ ("# Generated on " +:+ strftime_utc now +:+ EOL)
  +:+ yaml_dump env.

(** The loaded manifest [env] with the dependency at index [idx] set to
    Python [py]. *)
Definition with_python (env : manifest) (idx : nat) (py : string) : manifest :=
  {| dependencies := <[idx := Str ("python=" +:+ py +:+ ".*")]> (dependencies env);
     others := others env |}.

(** The text [set_python] writes into the manifest for Python [py]. *)
Definition manifest_text (env : manifest) (idx : nat) (py : string) (now : nat) : string :=
  generated_text (with_python env idx py) now.

(** The text [freeze] writes into the frozen file: the two comment lines,
    for the environment file named [rel] from [HERE] and the time [now], and
    then the text [temp] of the temporary file. *)
Definition frozen_head (rel : string) (now : nat) : string :=
  generated_from rel +:+ ("# Frozen on " +:+ strftime_utc now +:+ EOL).

Definition frozen_text (rel : string) (now : nat) (temp : string) : string :=
  frozen_head rel now +:+ temp.

(** The copy a turn of the main loop for [py] and [platform] is to make:
    none unless [py] is [3.7]; for [3.7], the lock file frozen for
    [environment.py-3.7.yml] and the platform, to [environment-{platform}.lock]
    beside [environment.yml]. *)
Definition default_copies (py platform : string) : list (string * string) :=
  if decide (py = "3.7") then
    match format (HERE_join "environment.py-{py}.yml") "py" py,
          format (splitext0 (HERE_join "environment.yml") +:+ "-{platform}.lock")
            "platform" platform with
    | Return formatted, Return target =>
        [(Path (splitext0 (Path formatted) +:+ ("-" +:+ platform +:+ ".lock")), target)]
    | _, _ => []
    end
  else [].

(** The copies a whole run on the command line [argv] is to make: for each
    Python version in turn, those for the two platforms. *)
Definition copies_of_run (argv : list string) : list (string * string) :=
  flat_map (λ py, flat_map (default_copies py) ["linux-64"; "linux-aarch64"])
    (match argv with
     | [] => ["3.7"; "3.8"; "3.9"; "3.10"]
     | _ :: _ => argv
     end).

End Texts.

(** The character [c] does not occur in [s]. *)
Fixpoint lacks (c : ascii) (s : string) : bool :=
  match s with
  | EmptyString => true
  | String c' rest => negb (bool_decide (c' = c)) && lacks c rest
  end.


(** ** A runtime to run the script on examples *)

(** The script installed in [/repo], on the first day of the epoch, with a
    conda-lock that writes a two-line lock file for every manifest it can
    read, and YAML restricted to the manifests of the examples. *)
Module Demo.

Fixpoint drop (n : nat) (s : string) : string :=
  match n, s with
  | S n', String _ s' => drop n' s'
  | _, _ => s
  end.

Definition HERE : string := "/repo".

(** [HERE / p]: an absolute [p] stands for itself. *)
Definition join (p : string) : string :=
  if Text.startswith "/" p then p else HERE +:+ "/" +:+ p.

(** [p.relative_to(HERE)] for a path other than [HERE] itself. *)
Definition relative (p : string) : option string :=
  if Text.startswith "/repo/" p then Some (drop 6 p) else None.

(** [os.path.splitext(p)[0]]: cut the last suffix of the last component,
    which starts at its last dot, unless only dots come before that dot. *)
Fixpoint suffix_end (backwards : list ascii) : list ascii :=
  match backwards with
  | [] => []
  | c :: rest =>
      if bool_decide (c = "."%char ∨ c = "/"%char) then backwards else suffix_end rest
  end.

Fixpoint only_dots (backwards : list ascii) : bool :=
  match backwards with
  | [] => true
  | c :: rest =>
      if decide (c = "/"%char) then true
      else if decide (c = "."%char) then only_dots rest else false
  end.

Definition splitext (p : string) : string :=
  match suffix_end (reverse (String.list_ascii_of_string p)) with
  | dot :: root =>
      if decide (dot = "."%char) then
        if only_dots root then p else String.string_of_list_ascii (reverse root)
      else p
  | [] => p
  end.

(** [template.format(key=value)] for a template whose braces are those of
    [{key}] fields; any other brace is reported as a KeyError. *)
Fixpoint fill (skip : nat) (field value template : string) : outcome string :=
  match template with
  | EmptyString => Return EmptyString
  | String c rest =>
      match skip with
      | S skip' => fill skip' field value rest
      | 0 =>
          if Text.startswith field template then
            match fill (String.length field - 1) field value rest with
            | Return text => Return (value +:+ text)
            | Raise e => Raise e
            end
          else if bool_decide (c = "{"%char ∨ c = "}"%char) then Raise KeyError
          else match fill 0 field value rest with
               | Return text => Return (String c text)
               | Raise e => Raise e
               end
      end
  end.

Definition fill_field (template key value : string) : outcome string :=
  fill 0 ("{" +:+ key +:+ "}") value template.

Definition digit (n : nat) : string :=
  match n with
  | 0 => "0" | 1 => "1" | 2 => "2" | 3 => "3" | 4 => "4"
  | 5 => "5" | 6 => "6" | 7 => "7" | 8 => "8" | _ => "9"
  end.

Definition two_digits (n : nat) : string := digit (n / 10 `mod` 10) +:+ digit (n `mod` 10).

(** The time of day [now] seconds after midnight, 1 January 1970. *)
Definition strftime (now : nat) : string :=
  "1970-01-01 " +:+ two_digits (now / 3600) +:+ ":" +:+ two_digits (now / 60 `mod` 60)
  +:+ ":" +:+ two_digits (now `mod` 60) +:+ " UTC".

(** The value of the option [name] on a command line. *)
Fixpoint option_value (name : string) (argv : list string) : option string :=
  match argv with
  | [] => None
  | arg :: rest =>
      if Text.startswith name arg then Some (drop (String.length name) arg)
      else option_value name rest
  end.

(** conda-lock: locks the manifest given by [--file] into the file named by
    [--filename-template], in one second; exits with 1 when it cannot read
    the manifest.  No other command exists. *)
Definition conda (argv : list string) (fs : gmap string string) (now : nat) : proc_result :=
  match argv with
  | command :: options =>
      if decide (command = "conda-lock") then
        match option_value "--file=" options,
              option_value "--filename-template=" options,
              option_value "--platform=" options with
        | Some file, Some template, Some platform =>
            match fs !! file, fill_field template "platform" platform with
            | Some _, Return locked =>
                Exited 0 (<[locked := "# platform: " +:+ platform +:+ String Text.LF ""
                                      +:+ "@EXPLICIT" +:+ String Text.LF ""]> fs) (now + 1)
            | _, _ => Exited 1 fs (now + 1)
            end
        | _, _, _ => Exited 2 fs now
        end
      else NotStarted
  | [] => NotStarted
  end.

(** The text of [s] after its first occurrence of [sep]. *)
Fixpoint after (sep : ascii) (s : string) : string :=
  match s with
  | EmptyString => EmptyString
  | String c rest => if decide (c = sep) then rest else after sep rest
  end.

Definition ends_with_colon (s : string) : bool :=
  match reverse (String.list_ascii_of_string s) with
  | c :: _ => bool_decide (c = ":"%char)
  | [] => false
  end.

(** YAML for the examples, line by line: comments, [key: value] entries, the
    line [dependencies:], and below it [- text] for a string and [- name:]
    for a mapping with the one key [name] and no value. *)
Fixpoint load_lines (lines : list string) (env : manifest) : outcome manifest :=
  match lines with
  | [] => Return env
  | line :: rest =>
      if bool_decide (line = "") || Text.startswith "#" line || bool_decide (line = "dependencies:")
      then load_lines rest env
      else if Text.startswith "- " line then
        let item := drop 2 line in
        let dep := if ends_with_colon item
                   then Map [(Text.before ":"%char item, Scalar "null")] else Str item in
        load_lines rest {| dependencies := dependencies env ++ [dep]; others := others env |}
      else if Text.contains ": " line then
        load_lines rest {| dependencies := dependencies env;
                           others := others env ++ [(Text.before ":"%char line,
                                                     Str (drop 1 (after ":"%char line)))] |}
      else Raise YAMLError
  end.

Definition load (text : string) : outcome manifest :=
  let lines := Text.split Text.LF text in
  if existsb (λ line, bool_decide (line = "dependencies:")) lines
  then load_lines lines (Manifest [] [])
  else Raise KeyError.

Definition dump_dep (dep : node) : string :=
  match dep with
  | Str s => "- " +:+ s
  | Scalar repr => "- " +:+ repr
  | Seq _ => "- []"
  | Map ((name, _) :: _) => "- " +:+ name +:+ ":"
  | Map [] => "- {}"
  end +:+ String Text.LF "".

Definition dump_other (entry : string * node) : string :=
  match entry with
  | (key, Str s) => key +:+ ": " +:+ s
  | (key, Scalar repr) => key +:+ ": " +:+ repr
  | (key, _) => key +:+ ":"
  end +:+ String Text.LF "".

Definition dump (env : manifest) : string :=
  foldr String.append "" (dump_other <$> others env)
  +:+ "dependencies:" +:+ String Text.LF ""
  +:+ foldr String.append "" (dump_dep <$> dependencies env).

#[export] Instance runtime : Runtime := {|
  HERE_join := join;
  relative_to_HERE := relative;
  Path := id;
  splitext0 := splitext;
  format := fill_field;
  strftime_utc := strftime;
  run := conda;
  yaml_load := load;
  yaml_dump := dump;
  relative_to_HERE_join := eq_refl
|}.

(** *** Worlds for the examples *)

Definition NL : string := String Text.LF "".

(** The manifest the script starts from. *)
Definition environment_yml : string :=
  "channels: conda-forge" +:+ NL +:+ "dependencies:" +:+ NL
  +:+ "- python=3.7" +:+ NL +:+ "- pip" +:+ NL.

(** A file somebody wrote, and a file the script wrote earlier. *)
Definition by_hand : string := "# pinned by hand" +:+ NL +:+ "@EXPLICIT" +:+ NL.

Definition written_earlier : string :=
  "# AUTO GENERATED FROM environment.yml, DO NOT MANUALLY MODIFY" +:+ NL
  +:+ "# Generated on 1969-12-31 23:59:59 UTC" +:+ NL.

(** A manifest with no dependency on python, and one with a pip section in
    place of it. *)
Definition without_python_yml : string :=
  "dependencies:" +:+ NL +:+ "- pip" +:+ NL.

Definition pip_section_yml : string :=
  "dependencies:" +:+ NL +:+ "- pip:" +:+ NL.

(** What the conda-lock of the examples writes for linux-64. *)
Definition locked : string := "# platform: linux-64" +:+ NL +:+ "@EXPLICIT" +:+ NL.

(** The world five seconds into the epoch, with the given files. *)
Definition installed (fs : list (string * string)) : world :=
  {| files := list_to_map fs; handles := ∅; clock := 5; trace := [] |}.

(** Only the manifest is there. *)
Definition fresh : world := installed [("/repo/environment.yml", environment_yml)].

(** The targets for Python 3.9 are there, written by hand. *)
Definition kept_by_hand : world :=
  installed [("/repo/environment.yml", environment_yml);
             ("/repo/environment.py-3.9.yml", by_hand);
             ("/repo/environment.py-3.9-linux-64.lock", by_hand)].

(** The targets for Python 3.9 are there, written by the script. *)
Definition run_before : world :=
  installed [("/repo/environment.yml", environment_yml);
             ("/repo/environment.py-3.9.yml", written_earlier);
             ("/repo/environment.py-3.9-linux-64.lock", written_earlier)].

(** A lock file written by hand, outside the directory of the script. *)
Definition lock_elsewhere : world :=
  installed [("/repo/environment.yml", environment_yml);
             ("/srv/environment.lock", by_hand)].

(** A manifest outside the directory of the script. *)
Definition manifest_elsewhere : world :=
  installed [("/srv/environment.yml", environment_yml)].

Definition without_python : world :=
  installed [("/repo/environment.yml", without_python_yml)].

Definition pip_section : world :=
  installed [("/repo/environment.yml", pip_section_yml)].

(** A manifest with a pip section before its dependency on python. *)
Definition pip_before_python_yml : string :=
  "dependencies:" +:+ NL +:+ "- pip:" +:+ NL +:+ "- python=3.7" +:+ NL.

Definition pip_before_python : world :=
  installed [("/repo/environment.yml", pip_before_python_yml)].

(** A lock file written by hand, beside the script. *)
Definition lock_by_hand : world :=
  installed [("/repo/environment.yml", environment_yml);
             ("/repo/environment.lock", by_hand)].

(** *** Other surroundings *)

(** A conda-lock that exits with 0 after a second and has written nothing. *)
Definition idle (argv : list string) (fs : gmap string string) (now : nat) : proc_result :=
  Exited 0 fs (now + 1).

(** No conda-lock on the search path. *)
Definition absent (argv : list string) (fs : gmap string string) (now : nat) : proc_result :=
  NotStarted.

(** The runtime of the examples with another way of running commands. *)
Definition running (command : list string → gmap string string → nat → proc_result)
  : Runtime := {|
  HERE_join := join;
  relative_to_HERE := relative;
  Path := id;
  splitext0 := splitext;
  format := fill_field;
  strftime_utc := strftime;
  run := command;
  yaml_load := load;
  yaml_dump := dump;
  relative_to_HERE_join := eq_refl
|}.

Definition with_idle_conda : Runtime := running idle.

(** A conda-lock that ends its lines with CR LF. *)
Definition locked_with_CR : string :=
  "@EXPLICIT" +:+ String Text.CR (String Text.LF "").

Definition conda_with_CR (argv : list string) (fs : gmap string string) (now : nat)
  : proc_result :=
  match option_value "--filename-template=" argv, option_value "--platform=" argv with
  | Some template, Some platform =>
      match fill_field template "platform" platform with
      | Return locked => Exited 0 (<[locked := locked_with_CR]> fs) (now + 1)
      | Raise _ => Exited 1 fs (now + 1)
      end
  | _, _ => Exited 2 fs now
  end.

Definition with_CR_conda : Runtime := running conda_with_CR.

Definition without_conda : Runtime := running absent.

End Demo.

(** * Proofs *)

(** *** Facts about the text operations *)

Lemma append_assoc (s1 s2 s3 : string) : (s1 +:+ s2) +:+ s3 = s1 +:+ s2 +:+ s3.
Proof.
  induction s1 as [|c s1 IH]; [done|].
  change (String c ((s1 +:+ s2) +:+ s3) = String c (s1 +:+ s2 +:+ s3)).
  by rewrite IH.
Qed.

Lemma startswith_app (p s : string) : Text.startswith p (p +:+ s) = true.
Proof.
  induction p as [|a p IH]; simpl; [done|].
  rewrite decide_True by done. exact IH.
Qed.

Lemma startswith_inv (p s : string) :
  Text.startswith p s = true → ∃ t, s = p +:+ t.
Proof.
  revert s. induction p as [|a p IH]; intros s H.
  - by exists s.
  - destruct s as [|b s]; simpl in H; [done|].
    destruct (decide (a = b)) as [->|]; [|done].
    destruct (IH _ H) as [t ->]. by exists t.
Qed.

(** [needle in hay] is true exactly when [hay] is some text, then [needle],
    then some text. *)
Lemma contains_spec (needle hay : string) :
  Text.contains needle hay = true ↔ ∃ a b, hay = a +:+ needle +:+ b.
Proof.
  split.
  - induction hay as [|c hay IH]; simpl; intros H.
    + rewrite orb_false_r in H. apply startswith_inv in H as [t ->].
      by exists EmptyString, t.
    + apply orb_true_iff in H as [H|H].
      * apply startswith_inv in H as [t ->]. by exists EmptyString, t.
      * destruct (IH H) as (a & b & ->). by exists (String c a), b.
  - intros (a & b & ->). induction a as [|c a IH].
    + change (EmptyString +:+ needle +:+ b) with (needle +:+ b).
      destruct (needle +:+ b) eqn:E; simpl; rewrite <- E, startswith_app; done.
    + change (String c a +:+ needle +:+ b) with (String c (a +:+ needle +:+ b)).
      simpl. rewrite IH. apply orb_true_r.
Qed.

Lemma split_nonempty (sep : ascii) (s : string) : Text.split sep s ≠ [].
Proof.
  destruct s as [|c s]; simpl; [done|].
  destruct (decide (c = sep)); [done|]. by destruct (Text.split sep s).
Qed.

(** The first piece of a split is the text before the first separator, so
    [dep.split("=")[0]] never raises and is [before "=" dep]. *)
Lemma split_item0 (sep : ascii) (s : string) :
  Text.item0 (Text.split sep s) = Some (Text.before sep s).
Proof.
  unfold Text.item0. induction s as [|c s IH]; simpl; [done|].
  destruct (decide (c = sep)); [done|].
  destruct (Text.split sep s) as [|piece pieces]; simpl in *; [done|].
  by injection IH as ->.
Qed.

(** ** Running the script by hand *)

Section Run.
Context `{Runtime}.

Lemma bind_Return {A B : Type} (c : script A) (k : A → script B) (w w' : world) (a : A) :
  c w = (Return a, w') → bind c k w = k a w'.
Proof. unfold bind. by intros ->. Qed.

Lemma bind_Raise {A B : Type} (c : script A) (k : A → script B) (w w' : world) (e : exn) :
  c w = (Raise e, w') → bind c k w = (Raise e, w').
Proof. unfold bind. by intros ->. Qed.

(** Lines 84 to 89 read the target and leave the world as it is. *)
Lemma not_regenerating_run (py_env_file : string) (w : world) :
  not_regenerating py_env_file w =
    (Return (match files w !! py_env_file with
             | Some content => negb (generated content)
             | None => false
             end), w).
Proof.
  unfold not_regenerating, bind, path_exists, open_r, generated.
  destruct (files w !! py_env_file) as [content|] eqn:E; simpl; [|done].
  rewrite ?E. by destruct (Text.contains _ _).
Qed.

(** Lines 43 to 50 read the target and at most print. *)
Lemma not_refreezing_run (frozen_file : string) (w : world) :
  not_refreezing frozen_file w =
    match files w !! HERE_join frozen_file with
    | Some content =>
        if generated content then (Return false, w)
        else match relative_to_HERE frozen_file with
             | Some rel =>
                 (Return true, log (Printed (rel +:+ " not autogenerated, not refreezing")) w)
             | None => (Raise ValueError, w)
             end
    | None => (Return false, w)
    end.
Proof.
  unfold not_refreezing, bind, path_exists, open_r, generated, relative_to.
  destruct (files w !! HERE_join frozen_file) as [content|] eqn:E; simpl; [|done].
  rewrite ?E. destruct (Text.contains _ _); simpl; [done|].
  by destruct (relative_to_HERE frozen_file).
Qed.

Lemma regenerate_run (py_env_file py : string) (w : world) :
  regenerate py_env_file py w =
    let w1 := log (Printed ("Regenerating " +:+ py_env_file +:+ " from " +:+ ENV_FILE)) w in
    match files w !! ENV_FILE with
    | None => (Raise FileNotFoundError, w1)
    | Some text =>
        match yaml_load (Text.read text) with
        | Raise e => (Raise e, w1)
        | Return env =>
            match find_python 0 (dependencies env) with
            | Raise e => (Raise e, w1)
            | Return idx =>
                let new := manifest_text env idx py (clock w) in
                (Return tt,
                 {| files := <[py_env_file := new]> (files w);
                    handles := delete py_env_file (handles w);
                    clock := clock w;
                    trace := trace w ++ [Printed ("Regenerating " +:+ py_env_file +:+ " from " +:+ ENV_FILE);
                                         Wrote py_env_file new] |})
            end
        end
    end.
Proof.
  unfold regenerate, bind, print, open_r, lift; simpl.
  destruct (files w !! ENV_FILE) as [text|]; [|done].
  destruct (yaml_load (Text.read text)) as [env|e]; [|done].
  destruct (find_python 0 (dependencies env)) as [idx|e]; [|done].
  unfold with_open_w, open_w, bind, relative_to, utcnow, write, close; simpl.
  pose proof relative_to_HERE_join as E. fold ENV_FILE in E. rewrite E.
  unfold ret; simpl.
  repeat (rewrite !lookup_insert_eq; simpl).
  unfold log, with_handles, with_files, manifest_text, generated_text, with_python; simpl.
  rewrite !insert_insert_eq, !delete_insert_eq.
  change ("" +:+ generated_from "environment.yml") with (generated_from "environment.yml").
  by rewrite !append_assoc, <- !app_assoc.
Qed.

Lemma refreeze_run (env_file frozen_file platform : string) (w : world) :
  refreeze env_file frozen_file platform w =
    let frozen_dest := HERE_join frozen_file in
    let frozen_template := frozen_dest +:+ ".{platform}" in
    let argv := conda_lock env_file frozen_template platform in
    let freezing := Printed ("Freezing " +:+ env_file +:+ " -> " +:+ frozen_file) in
    match format frozen_template "platform" platform with
    | Raise e => (Raise e, log freezing w)
    | Return formatted =>
        let frozen_tempfile := Path formatted in
        match run argv (files w) (clock w) with
        | NotStarted => (Raise FileNotFoundError, log (Executed argv) (log freezing w))
        | Exited status fs now =>
            let wrote (text : string) (fs' : gmap string string) : world :=
              {| files := fs'; handles := delete frozen_dest (handles w); clock := now;
                 trace := trace w ++ [freezing; Executed argv; Wrote frozen_dest text] |} in
            if decide (status = 0%Z) then
              match relative_to_HERE env_file with
              | None => (Raise ValueError, wrote "" (<[frozen_dest := ""]> fs))
              | Some rel =>
                  match <[frozen_dest := ""]> fs !! frozen_tempfile with
                  | None =>
                      (Raise FileNotFoundError,
                       wrote (frozen_head rel now) (<[frozen_dest := frozen_head rel now]> fs))
                  | Some temp =>
                      (Return tt,
                       wrote (frozen_text rel now (Text.read temp))
                         (delete frozen_tempfile
                            (<[frozen_dest := frozen_text rel now (Text.read temp)]> fs)))
                  end
              end
            else
              (Raise (CalledProcessError status),
               {| files := fs; handles := handles w; clock := now;
                  trace := trace w ++ [freezing; Executed argv] |})
        end
    end.
Proof.
  unfold refreeze, bind, print, lift; simpl.
  destruct (format _ _ _) as [formatted|e]; [|done].
  unfold check_call; simpl.
  destruct (run _ _ _) as [|status fs now].
  { unfold log; simpl. by rewrite <- ?app_assoc. }
  destruct (decide (status = 0%Z)) as [->|]; [|by rewrite <- ?app_assoc].
  unfold with_open_w, open_w, bind, relative_to, utcnow, write, close, open_r; simpl.
  destruct (relative_to_HERE env_file) as [rel|]; unfold ret, raise; simpl.
  - repeat (rewrite !lookup_insert_eq; simpl).
    destruct (<[HERE_join frozen_file:=""]> fs !! Path formatted) as [temp|] eqn:E; simpl.
    + repeat (rewrite !lookup_insert_eq; simpl).
      unfold os_remove, log, with_handles, with_files, frozen_text, frozen_head; simpl.
      rewrite ?insert_insert_eq, ?delete_insert_eq.
      change ("" +:+ generated_from rel) with (generated_from rel).
      rewrite ?append_assoc, <- ?app_assoc; simpl.
      destruct (decide (HERE_join frozen_file = Path formatted)) as [Heq|Hne].
      * rewrite <- Heq, lookup_insert_eq; simpl. done.
      * rewrite lookup_insert_ne in E by done.
        rewrite lookup_insert_ne by done. rewrite E; simpl. done.
    + repeat (rewrite !lookup_insert_eq; simpl).
      unfold log, with_handles, with_files, frozen_head; simpl.
      rewrite ?insert_insert_eq, ?delete_insert_eq.
      change ("" +:+ generated_from rel) with (generated_from rel).
      by rewrite ?append_assoc, <- ?app_assoc.
  - repeat (rewrite !lookup_insert_eq; simpl).
    unfold log, with_handles, with_files; simpl.
    rewrite ?insert_insert_eq, ?delete_insert_eq.
    by rewrite <- ?app_assoc.
Qed.

End Run.

Section Guard.
Context `{Runtime}.

Lemma set_python_run (py_env_file py : string) (w : world) :
  set_python py_env_file py w =
    if overwritable (files w) py_env_file then regenerate py_env_file py w
    else (Return tt, w).
Proof.
  unfold set_python, overwritable.
  rewrite (bind_Return _ _ _ _ _ (not_regenerating_run py_env_file w)).
  destruct (files w !! py_env_file) as [content|]; [|done].
  by destruct (generated content).
Qed.

Lemma freeze_run (env_file frozen_file platform : string) (w : world) :
  freeze env_file frozen_file platform w =
    if overwritable (files w) (HERE_join frozen_file)
    then refreeze env_file frozen_file platform w
    else match relative_to_HERE frozen_file with
         | Some rel =>
             (Return tt, log (Printed (rel +:+ " not autogenerated, not refreezing")) w)
         | None => (Raise ValueError, w)
         end.
Proof.
  unfold freeze, overwritable, bind. rewrite not_refreezing_run.
  destruct (files w !! HERE_join frozen_file) as [content|]; [|done].
  destruct (generated content); [done|].
  by destruct (relative_to_HERE frozen_file).
Qed.

(** A text that starts with the first line the script writes has the marker. *)
Lemma generated_from_generated (rel rest : string) :
  generated (generated_from rel +:+ rest) = true.
Proof. reflexivity. Qed.

End Guard.

(** ** The search for the python dependency *)

Section Search.
Context `{Runtime}.

Lemma find_python_Str (idx : nat) (dep : string) (rest : list node) :
  find_python idx (Str dep :: rest) =
    if decide (Text.before "="%char dep = "python") then Return idx
    else find_python (S idx) rest.
Proof. simpl. by rewrite split_item0. Qed.

Lemma find_python_passed (idx : nat) (pre rest : list node) :
  Forall passed_over pre →
  find_python idx (pre ++ rest) = find_python (idx + length pre) rest.
Proof.
  intros Hpre. revert idx. induction Hpre as [|d pre (s & -> & Hs) _ IH]; intros idx.
  - simpl. by rewrite Nat.add_0_r.
  - change ((Str s :: pre) ++ rest) with (Str s :: (pre ++ rest)).
    rewrite find_python_Str, decide_False by done.
    rewrite IH. simpl. f_equal. lia.
Qed.

(** The search breaks at the first dependency on python, when only strings
    come before it. *)
Lemma find_python_found (idx : nat) (pre : list node) (dep : string) (post : list node) :
  Forall passed_over pre →
  Text.before "="%char dep = "python" →
  find_python idx (pre ++ Str dep :: post) = Return (idx + length pre).
Proof.
  intros Hpre Hdep. rewrite find_python_passed by done.
  by rewrite find_python_Str, decide_True.
Qed.

Lemma find_python_Return (idx : nat) (deps : list node) (found : nat) :
  find_python idx deps = Return found →
  ∃ pre dep post,
    deps = pre ++ Str dep :: post ∧ Forall passed_over pre ∧
    Text.before "="%char dep = "python" ∧ found = idx + length pre.
Proof.
  revert idx. induction deps as [|d deps IH]; intros idx Hfind; [done|].
  destruct d as [s| | |]; try done.
  rewrite find_python_Str in Hfind.
  destruct (decide (Text.before "="%char s = "python")) as [Hs|Hs].
  - injection Hfind as <-. exists [], s, deps. simpl.
    repeat split; [done..|lia].
  - destruct (IH _ Hfind) as (pre & dep & post & -> & Hpre & Hdep & ->).
    exists (Str s :: pre), dep, post. simpl. repeat split; [|done|lia].
    constructor; [by exists s|done].
Qed.

(** The search runs off the end of the list exactly when every dependency is
    a string that is not a dependency on python. *)
Lemma find_python_ValueError (idx : nat) (deps : list node) :
  find_python idx deps = Raise ValueError ↔ Forall passed_over deps.
Proof.
  split.
  - revert idx. induction deps as [|d deps IH]; intros idx Hfind; [constructor|].
    destruct d as [s| | |]; try done.
    rewrite find_python_Str in Hfind.
    destruct (decide (Text.before "="%char s = "python")) as [Hs|Hs]; [done|].
    constructor; [by exists s|by eapply IH].
  - intros Hall. rewrite <- (app_nil_r deps), find_python_passed by done. done.
Qed.

(** A dependency that is not a string stops the search with AttributeError. *)
Lemma find_python_AttributeError (idx : nat) (deps : list node) :
  find_python idx deps = Raise AttributeError ↔
  ∃ pre d post, deps = pre ++ d :: post ∧ Forall passed_over pre ∧ ∀ s, d ≠ Str s.
Proof.
  split.
  - revert idx. induction deps as [|d deps IH]; intros idx Hfind; [done|].
    destruct d as [s|r|l|m].
    + rewrite find_python_Str in Hfind.
      destruct (decide (Text.before "="%char s = "python")) as [Hs|Hs]; [done|].
      destruct (IH _ Hfind) as (pre & d & post & -> & Hpre & Hd).
      exists (Str s :: pre), d, post. repeat split; [|done].
      constructor; [by exists s|done].
    + by exists [], (Scalar r), deps.
    + by exists [], (Seq l), deps.
    + by exists [], (Map m), deps.
  - intros (pre & d & post & -> & Hpre & Hd).
    rewrite find_python_passed by done.
    destruct d as [s| | |]; [by destruct (Hd s)|done..].
Qed.

Lemma find_python_Raise (idx : nat) (deps : list node) (e : exn) :
  find_python idx deps = Raise e → e = ValueError ∨ e = AttributeError.
Proof.
  revert idx. induction deps as [|d deps IH]; intros idx Hfind.
  - injection Hfind as <-. by left.
  - destruct d as [s| | |]; try (injection Hfind as <-; by right).
    rewrite find_python_Str in Hfind.
    destruct (decide (Text.before "="%char s = "python")); [done|by eapply IH].
Qed.

(** Replacing the dependency found leaves the others as they are. *)
Lemma insert_found (pre : list node) (old new : node) (post : list node) :
  <[length pre := new]> (pre ++ old :: post) = pre ++ new :: post.
Proof. by rewrite insert_app_r_alt, Nat.sub_diag by lia. Qed.

End Search.

(** ** What a run leaves in the trace *)

Lemma writes_app (evs evs' : list event) : writes (evs ++ evs') = writes evs ++ writes evs'.
Proof. apply omap_app. Qed.

Lemma commands_app (evs evs' : list event) :
  commands (evs ++ evs') = commands evs ++ commands evs'.
Proof. apply omap_app. Qed.

Lemma copies_app (evs evs' : list event) : copies (evs ++ evs') = copies evs ++ copies evs'.
Proof. apply omap_app. Qed.

(** * The claims *)

Section Claims.
Context `{Runtime}.

(** ** The refusal to overwrite *)

(** C1.  When the target exists and its first line lacks the marker,
    [set_python] returns and leaves the world as it is, and [freeze] leaves
    every file as it is, executes no command and writes no file.  But
    [freeze] returns only when the message of line 48 can be formatted, that
    is when [frozen_file] is a path below [HERE]: for any other
    [frozen_file], such as a path relative to [HERE], it raises ValueError
    where it was to return. *)
Theorem refusal_touches_nothing
    (py_env_file py env_file frozen_file platform content : string) (w : world) :
  generated content = false →
  (files w !! py_env_file = Some content →
   set_python py_env_file py w = (Return tt, w)) ∧
  (files w !! HERE_join frozen_file = Some content →
   let r := freeze env_file frozen_file platform w in
   fst r = match relative_to_HERE frozen_file with
           | Some _ => Return tt
           | None => Raise ValueError
           end ∧
   files (snd r) = files w ∧
   commands (trace (snd r)) = commands (trace w) ∧
   writes (trace (snd r)) = writes (trace w)).
Proof.
  intros Hgen. split; intros Hfile.
  - rewrite set_python_run. unfold overwritable. by rewrite Hfile, Hgen.
  - rewrite freeze_run. unfold overwritable. rewrite Hfile, Hgen.
    destruct (relative_to_HERE frozen_file) as [rel|]; simpl; [|done].
    by rewrite commands_app, writes_app, !app_nil_r.
Qed.

(** What [regenerate] leaves: when it returns it has written the target once,
    with a text that has the marker; when it raises it has written nothing. *)
Lemma regenerate_writes (py_env_file py : string) (w : world) :
  let r := regenerate py_env_file py w in
  (fst r = Return tt →
   ∃ text, generated text = true ∧ files (snd r) !! py_env_file = Some text ∧
           writes (trace (snd r)) = writes (trace w) ++ [(py_env_file, text)]) ∧
  (∀ e, fst r = Raise e →
        files (snd r) = files w ∧ writes (trace (snd r)) = writes (trace w)).
Proof.
  rewrite regenerate_run; simpl.
  destruct (files w !! ENV_FILE) as [text|]; simpl;
    [|split; [done|intros; by rewrite writes_app, app_nil_r]].
  destruct (yaml_load (Text.read text)) as [env|e]; simpl;
    [|split; [done|intros; by rewrite writes_app, app_nil_r]].
  destruct (find_python 0 (dependencies env)) as [idx|e]; simpl;
    [|split; [done|intros; by rewrite writes_app, app_nil_r]].
  split; [|done]. intros _. exists (manifest_text env idx py (clock w)).
  split; [|split].
  - unfold manifest_text, generated_text. apply generated_from_generated.
  - apply lookup_insert_eq.
  - by rewrite writes_app.
Qed.

(** What [refreeze] leaves when it returns: it has written the target once,
    with a text that has the marker, and the target holds that text (unless
    the temporary file, which is removed, is the target itself). *)
Lemma refreeze_writes (env_file frozen_file platform : string) (w : world) :
  let r := refreeze env_file frozen_file platform w in
  fst r = Return tt →
  ∃ text formatted,
    generated text = true ∧
    format (HERE_join frozen_file +:+ ".{platform}") "platform" platform = Return formatted ∧
    writes (trace (snd r)) = writes (trace w) ++ [(HERE_join frozen_file, text)] ∧
    (Path formatted ≠ HERE_join frozen_file →
     files (snd r) !! HERE_join frozen_file = Some text).
Proof.
  rewrite refreeze_run; simpl.
  destruct (format _ _ _) as [formatted|e]; simpl; [|done].
  destruct (run _ _ _) as [|status fs now]; simpl; [done|].
  destruct (decide (status = 0%Z)); simpl; [|done].
  destruct (relative_to_HERE env_file) as [rel|]; simpl; [|done].
  destruct (_ !! Path formatted) as [temp|]; simpl; [|done].
  intros _. exists (frozen_text rel now (Text.read temp)), formatted.
  split; [unfold frozen_text, frozen_head; rewrite append_assoc;
          apply generated_from_generated|].
  split; [done|]. split.
  - by rewrite writes_app.
  - intros Hne. rewrite lookup_delete_ne by done. apply lookup_insert_eq.
Qed.

(** C2, as the code has it: the marker works the other way round.  A target
    whose first line has the marker is regenerated: the code that writes runs,
    and when it returns it has written the target anew.  A target whose first
    line lacks the marker is the one that is not overwritten. *)
Theorem marker_permits_overwriting
    (py_env_file py env_file frozen_file platform content : string) (w : world) :
  (files w !! py_env_file = Some content →
   let r := set_python py_env_file py w in
   (generated content = true →
    r = regenerate py_env_file py w ∧
    (fst r = Return tt →
     ∃ text, generated text = true ∧ files (snd r) !! py_env_file = Some text ∧
             writes (trace (snd r)) = writes (trace w) ++ [(py_env_file, text)])) ∧
   (generated content = false →
    files (snd r) !! py_env_file = Some content ∧
    writes (trace (snd r)) = writes (trace w))) ∧
  (files w !! HERE_join frozen_file = Some content →
   let r := freeze env_file frozen_file platform w in
   (generated content = true →
    r = refreeze env_file frozen_file platform w ∧
    (fst r = Return tt →
     ∃ text, generated text = true ∧
             writes (trace (snd r)) = writes (trace w) ++ [(HERE_join frozen_file, text)])) ∧
   (generated content = false →
    files (snd r) !! HERE_join frozen_file = Some content ∧
    writes (trace (snd r)) = writes (trace w))).
Proof.
  split; intros Hfile r; subst r; split; intros Hgen.
  - rewrite set_python_run. unfold overwritable. rewrite Hfile, Hgen.
    split; [done|]. apply regenerate_writes.
  - rewrite set_python_run. unfold overwritable. by rewrite Hfile, Hgen.
  - rewrite freeze_run. unfold overwritable. rewrite Hfile, Hgen.
    split; [done|]. intros Hret.
    destruct (refreeze_writes env_file frozen_file platform w Hret)
      as (text & formatted & Htext & _ & Hw & _).
    by exists text.
  - rewrite freeze_run. unfold overwritable. rewrite Hfile, Hgen.
    destruct (relative_to_HERE frozen_file) as [rel|]; simpl; [|done].
    by rewrite writes_app, app_nil_r.
Qed.

(** ** Setting the Python version *)

Lemma passed_over_strings (deps : list node) :
  Forall passed_over deps ↔ Forall is_string deps ∧ ¬ Exists pins_python deps.
Proof.
  split.
  - intros Hall. split.
    + eapply Forall_impl; [done|]. intros d (s & -> & _). by exists s.
    + intros Hex. apply Exists_exists in Hex as (d & Hd & s & -> & Hs).
      rewrite Forall_forall in Hall.
      destruct (Hall _ Hd) as (s' & [= <-] & Hs'). done.
  - intros [Hstr Hno]. rewrite Forall_forall in Hstr |- *. intros d Hd.
    destruct (Hstr d Hd) as [s ->]. exists s. split; [done|].
    intros Hs. apply Hno, Exists_exists. exists (Str s). split; [done|by exists s].
Qed.

(** C3.  The search of [set_python] does not get past a dependency that is
    not a string, such as a pip section: when one comes before every
    dependency on python, the search ends there with AttributeError, whatever
    comes after it, and [set_python] raises it with nothing replaced and no
    file written. *)
Theorem set_python_stops_at_a_section
    (py_env_file py text : string) (env : manifest) (pre post : list node) (d : node)
    (w : world) :
  overwritable (files w) py_env_file = true →
  files w !! ENV_FILE = Some text →
  yaml_load (Text.read text) = Return env →
  dependencies env = pre ++ d :: post →
  Forall passed_over pre →
  ¬ is_string d →
  let r := set_python py_env_file py w in
  fst r = Raise AttributeError ∧
  files (snd r) = files w ∧
  writes (trace (snd r)) = writes (trace w).
Proof.
  intros Hover Hfile Hload Hdeps Hpre Hd r. subst r.
  rewrite set_python_run, Hover, regenerate_run; simpl. rewrite Hfile, Hload.
  assert (find_python 0 (dependencies env) = Raise AttributeError) as ->.
  { apply find_python_AttributeError. exists pre, d, post.
    split; [done|]. split; [done|]. intros s ->. apply Hd. by exists s. }
  simpl. by rewrite writes_app, app_nil_r.
Qed.

(** C4.  With the manifest loaded, [set_python] raises ValueError exactly
    when every dependency is a string and none is a dependency on python.  A
    list without a dependency on python does not always give ValueError: a
    dependency that is not a string and is met before any dependency on
    python ends the search with AttributeError instead.  Whenever
    [set_python] raises, it has written no file. *)
Theorem set_python_ValueError
    (py_env_file py text : string) (env : manifest) (w : world) :
  overwritable (files w) py_env_file = true →
  files w !! ENV_FILE = Some text →
  yaml_load (Text.read text) = Return env →
  let r := set_python py_env_file py w in
  (fst r = Raise ValueError ↔
   Forall is_string (dependencies env) ∧ ¬ Exists pins_python (dependencies env)) ∧
  (fst r = Raise AttributeError ↔
   ∃ pre d post, dependencies env = pre ++ d :: post ∧
                 Forall passed_over pre ∧ ¬ is_string d) ∧
  (∀ e, fst r = Raise e →
        files (snd r) = files w ∧ writes (trace (snd r)) = writes (trace w)).
Proof.
  intros Hover Hfile Hload r. subst r.
  rewrite set_python_run, Hover.
  split; [|split].
  - rewrite <- passed_over_strings, <- (find_python_ValueError 0).
    rewrite regenerate_run; simpl. rewrite Hfile, Hload.
    destruct (find_python 0 (dependencies env)) as [idx|e]; simpl; [done|].
    split; congruence.
  - rewrite regenerate_run; simpl. rewrite Hfile, Hload.
    transitivity (find_python 0 (dependencies env) = Raise AttributeError).
    + destruct (find_python 0 (dependencies env)) as [idx|e]; simpl; [done|].
      split; congruence.
    + rewrite find_python_AttributeError. unfold is_string.
      split; intros (pre & d & post & ? & ? & Hd); exists pre, d, post;
        (split; [done|split; [done|]]).
      * intros [s ->]. by apply (Hd s).
      * intros s ->. apply Hd. by exists s.
  - apply regenerate_writes.
Qed.

(** ** Freezing *)

Lemma read_without_CR (text : string) :
  lacks Text.CR text = true → Text.read text = text.
Proof.
  induction text as [|c text IH]; simpl; [done|].
  intros [Hc Htext]%andb_true_iff. apply negb_true_iff, bool_decide_eq_false in Hc.
  by rewrite decide_False, IH.
Qed.

(** C6, as the code has it.  When [freeze] goes on after its check of the
    marker, conda-lock exits with 0 and has produced the temporary file, the
    frozen file is left holding the line [# AUTO GENERATED FROM ..., DO NOT
    MANUALLY MODIFY] with the environment file named from [HERE], the line
    [# Frozen on ...] with the time, and then the text of the temporary file
    as it is read in text mode: with every CR LF and CR turned into LF, so
    unchanged when it holds no CR.  The temporary file is gone and no other
    file is changed. *)
Theorem freeze_stamps_the_lock
    (env_file frozen_file platform rel formatted temp : string)
    (fs : gmap string string) (now : nat) (w : world) :
  let frozen_dest := HERE_join frozen_file in
  let frozen_template := frozen_dest +:+ ".{platform}" in
  let frozen_tempfile := Path formatted in
  overwritable (files w) frozen_dest = true →
  format frozen_template "platform" platform = Return formatted →
  run (conda_lock env_file frozen_template platform) (files w) (clock w) = Exited 0 fs now →
  fs !! frozen_tempfile = Some temp →
  frozen_tempfile ≠ frozen_dest →
  relative_to_HERE env_file = Some rel →
  let r := freeze env_file frozen_file platform w in
  fst r = Return tt ∧
  files (snd r) !! frozen_dest =
    Some (("# AUTO GENERATED FROM " +:+ rel +:+ ", DO NOT MANUALLY MODIFY"
           +:+ String Text.LF "")
          +:+ ("# Frozen on " +:+ strftime_utc now +:+ String Text.LF "")
          +:+ Text.read temp) ∧
  (lacks Text.CR temp = true → Text.read temp = temp) ∧
  files (snd r) !! frozen_tempfile = None ∧
  (∀ p, p ≠ frozen_dest → p ≠ frozen_tempfile → files (snd r) !! p = fs !! p).
Proof.
  intros frozen_dest frozen_template frozen_tempfile Hover Hformat Hrun Htemp Hne Hrel r.
  subst r. rewrite freeze_run. fold frozen_dest. rewrite Hover, refreeze_run; simpl.
  fold frozen_dest frozen_template. rewrite Hformat, Hrun; simpl. rewrite Hrel.
  fold frozen_tempfile. rewrite lookup_insert_ne, Htemp by done; simpl.
  split; [done|]. split; [|split; [|split]].
  - rewrite lookup_delete_ne, lookup_insert_eq by done.
    unfold frozen_text, frozen_head, generated_from, EOL. by rewrite !append_assoc.
  - apply read_without_CR.
  - apply lookup_delete_eq.
  - intros p Hp Hp'. by rewrite lookup_delete_ne, lookup_insert_ne.
Qed.

(** C7.  When conda-lock exits with a status other than 0, [freeze] ends with
    the CalledProcessError of that status and has written nothing: the files
    are as conda-lock left them, so a frozen file that conda-lock did not
    touch is as it was. *)
Theorem freeze_propagates_failure
    (env_file frozen_file platform formatted : string) (status : Z)
    (fs : gmap string string) (now : nat) (w : world) :
  let frozen_dest := HERE_join frozen_file in
  let frozen_template := frozen_dest +:+ ".{platform}" in
  overwritable (files w) frozen_dest = true →
  format frozen_template "platform" platform = Return formatted →
  run (conda_lock env_file frozen_template platform) (files w) (clock w)
    = Exited status fs now →
  status ≠ 0%Z →
  let r := freeze env_file frozen_file platform w in
  fst r = Raise (CalledProcessError status) ∧
  files (snd r) = fs ∧
  writes (trace (snd r)) = writes (trace w) ∧
  (fs !! frozen_dest = files w !! frozen_dest →
   files (snd r) !! frozen_dest = files w !! frozen_dest).
Proof.
  intros frozen_dest frozen_template Hover Hformat Hrun Hstatus r. subst r.
  rewrite freeze_run. fold frozen_dest. rewrite Hover, refreeze_run; simpl.
  fold frozen_dest frozen_template. rewrite Hformat, Hrun; simpl.
  rewrite decide_False by done; simpl.
  split; [done|]. split; [done|]. split; [|done].
  by rewrite writes_app, app_nil_r.
Qed.

(** ** A target that does not exist *)

(** C9, as the code has it.  When the target does not exist, both functions
    go on to regenerate, whatever their arguments: nothing is read for a
    marker and the code that writes runs.  The file exists, with the marker,
    when that code returns; it is not created when that code raises before it
    writes. *)
Theorem absent_target_is_regenerated
    (py_env_file py env_file frozen_file platform : string) (w : world) :
  (files w !! py_env_file = None →
   let r := set_python py_env_file py w in
   r = regenerate py_env_file py w ∧
   (fst r = Return tt →
    ∃ text, generated text = true ∧ files (snd r) !! py_env_file = Some text)) ∧
  (files w !! HERE_join frozen_file = None →
   let r := freeze env_file frozen_file platform w in
   r = refreeze env_file frozen_file platform w ∧
   (fst r = Return tt →
    ∃ text formatted,
      generated text = true ∧
      format (HERE_join frozen_file +:+ ".{platform}") "platform" platform
        = Return formatted ∧
      (Path formatted ≠ HERE_join frozen_file →
       files (snd r) !! HERE_join frozen_file = Some text))).
Proof.
  split; intros Hfile r; subst r.
  - rewrite set_python_run. unfold overwritable. rewrite Hfile.
    split; [done|]. intros Hret.
    destruct (regenerate_writes py_env_file py w) as [Hwrites _].
    destruct (Hwrites Hret) as (text & Hgen & Htext & _). by exists text.
  - rewrite freeze_run. unfold overwritable. rewrite Hfile.
    split; [done|]. intros Hret.
    destruct (refreeze_writes env_file frozen_file platform w Hret)
      as (text & formatted & Hgen & Hformat & _ & Htext).
    by exists text, formatted.
Qed.

(** ** The command line *)

(** What the namespace holds, for every command line. *)
Lemma platform_args (argv : list string) :
  getattr (parse_args argv) "py" =
    Return (match argv with
            | [] => ["3.7"; "3.8"; "3.9"; "3.10"]
            | _ :: _ => argv
            end) ∧
  getattr (parse_args argv) "platform" = Return ["linux-64"; "linux-aarch64"].
Proof. by destruct argv. Qed.

(** C8.  Both positionals have their defaults, but the command line cannot
    give platforms: every positional argument goes to [py], whatever it is,
    and [platform] is its default on every command line. *)
Theorem platform_is_always_the_default (argv : list string) :
  getattr (parse_args argv) "py" =
    Return (match argv with
            | [] => ["3.7"; "3.8"; "3.9"; "3.10"]
            | _ :: _ => argv
            end) ∧
  getattr (parse_args argv) "platform" = Return ["linux-64"; "linux-aarch64"].
Proof. by destruct argv. Qed.

(** ** The main loop *)

Lemma set_python_copies (py_env_file py : string) (w : world) :
  copies (trace (snd (set_python py_env_file py w))) = copies (trace w).
Proof.
  rewrite set_python_run. destruct (overwritable _ _); [|done].
  rewrite regenerate_run; simpl.
  destruct (files w !! ENV_FILE) as [text|]; simpl;
    [|by rewrite copies_app, app_nil_r].
  destruct (yaml_load (Text.read text)) as [env|e]; simpl; [|by rewrite copies_app, app_nil_r].
  destruct (find_python 0 (dependencies env)) as [idx|e]; simpl;
    by rewrite copies_app, app_nil_r.
Qed.

Lemma freeze_copies (env_file frozen_file platform : string) (w : world) :
  copies (trace (snd (freeze env_file frozen_file platform w))) = copies (trace w).
Proof.
  rewrite freeze_run. destruct (overwritable _ _).
  - rewrite refreeze_run; simpl.
    destruct (format _ _ _) as [formatted|e]; simpl; [|by rewrite copies_app, app_nil_r].
    destruct (run _ _ _) as [|status fs now]; simpl;
      [by rewrite !copies_app, !app_nil_r|].
    destruct (decide (status = 0%Z)); simpl; [|by rewrite copies_app, app_nil_r].
    destruct (relative_to_HERE env_file) as [rel|]; simpl;
      [|by rewrite copies_app, app_nil_r].
    destruct (_ !! Path formatted); simpl; by rewrite copies_app, app_nil_r.
  - destruct (relative_to_HERE frozen_file); simpl; [|done].
    by rewrite copies_app, app_nil_r.
Qed.

(** One turn of the loop for a Python version other than the default copies
    nothing. *)
Lemma iteration_copies_nothing (py platform : string) (w : world) :
  py ≠ default_py →
  copies (trace (snd (iteration py platform w))) = copies (trace w).
Proof.
  intros Hpy. unfold iteration, bind, lift.
  destruct (format ENV_FILE_T "py" py) as [formatted|e]; [|done].
  destruct (set_python (Path formatted) py w) as [[[]|e] w1] eqn:Hset;
    pose proof (set_python_copies (Path formatted) py w) as Hw1;
    rewrite Hset in Hw1; simpl in Hw1; [|done].
  match goal with |- context [freeze ?e ?f ?p w1] =>
    destruct (freeze e f p w1) as [[[]|e'] w2] eqn:Hfreeze;
    pose proof (freeze_copies e f p w1) as Hw2
  end; rewrite Hfreeze in Hw2; simpl in Hw2; [|simpl; congruence].
  rewrite decide_False by done. simpl. congruence.
Qed.

(** A loop whose every turn copies nothing copies nothing. *)
Lemma for_each_copies {A : Type} (xs : list A) (body : A → script unit) :
  (∀ x w, x ∈ xs → copies (trace (snd (body x w))) = copies (trace w)) →
  ∀ w, copies (trace (snd (for_each xs body w))) = copies (trace w).
Proof.
  induction xs as [|x xs IH]; intros Hbody w; [done|].
  simpl. unfold bind.
  destruct (body x w) as [[[]|e] w1] eqn:Hx;
    pose proof (Hbody x w ltac:(left)) as Hw1; rewrite Hx in Hw1; simpl in Hw1; [|done].
  rewrite IH; [done|]. intros y w' Hy. apply Hbody. by right.
Qed.

(** The copies of one turn of the loop: those it is to make when it
    completes, and none when it raises. *)
Lemma iteration_copies (py platform : string) (w : world) :
  ∃ made,
    copies (trace (snd (iteration py platform w))) = copies (trace w) ++ made ∧
    made `prefix_of` default_copies py platform ∧
    (fst (iteration py platform w) = Return tt → made = default_copies py platform).
Proof.
  destruct (decide (py = "3.7")) as [->|Hpy].
  - unfold iteration, default_copies, bind, lift, ENV_FILE_T, FROZEN_FILE_T, ENV_FILE.
    rewrite decide_True by done.
    destruct (format (HERE_join "environment.py-{py}.yml") "py" "3.7") as [formatted|e].
    2:{ exists []. rewrite app_nil_r. split; [done|]. split; [apply prefix_nil|done]. }
    destruct (set_python (Path formatted) "3.7" w) as [[[]|e] w1] eqn:Hset;
      pose proof (set_python_copies (Path formatted) "3.7" w) as Hw1;
      rewrite Hset in Hw1; simpl in Hw1.
    2:{ exists []. rewrite app_nil_r. split; [done|]. split; [apply prefix_nil|done]. }
    match goal with |- context [freeze ?e ?f ?p w1] =>
      destruct (freeze e f p w1) as [[[]|e'] w2] eqn:Hfreeze;
      pose proof (freeze_copies e f p w1) as Hw2
    end; rewrite Hfreeze in Hw2; simpl in Hw2.
    2:{ exists []. rewrite app_nil_r. split; [simpl; congruence|].
        split; [apply prefix_nil|done]. }
    rewrite decide_True by done.
    destruct (format _ "platform" platform) as [target|e].
    2:{ exists []. rewrite app_nil_r. split; [simpl; congruence|]. split; [done|done]. }
    unfold shutil_copy.
    destruct (files w2 !! _) as [content|].
    2:{ exists []. rewrite app_nil_r. split; [simpl; congruence|].
        split; [apply prefix_nil|done]. }
    destruct (decide (_ = target)).
    { exists []. rewrite app_nil_r. split; [simpl; congruence|].
      split; [apply prefix_nil|done]. }
    eexists. split; [|split; [reflexivity|done]].
    simpl. rewrite copies_app. simpl. congruence.
  - exists []. rewrite app_nil_r. split; [by apply iteration_copies_nothing|].
    unfold default_copies. by rewrite decide_False.
Qed.

(** The copies of a loop, from those of its turns. *)
Lemma for_each_copies_prefix {A : Type} (xs : list A) (body : A → script unit)
    (expected : A → list (string * string)) :
  (∀ x w, ∃ made,
     copies (trace (snd (body x w))) = copies (trace w) ++ made ∧
     made `prefix_of` expected x ∧
     (fst (body x w) = Return tt → made = expected x)) →
  ∀ w, ∃ made,
    copies (trace (snd (for_each xs body w))) = copies (trace w) ++ made ∧
    made `prefix_of` flat_map expected xs ∧
    (fst (for_each xs body w) = Return tt → made = flat_map expected xs).
Proof.
  intros Hbody. induction xs as [|x xs IH]; intros w.
  - exists []. by rewrite app_nil_r.
  - destruct (Hbody x w) as (made1 & Hcopies1 & Hprefix1 & Hall1).
    simpl. unfold bind. destruct (body x w) as [[[]|e] w1]; simpl in *.
    + destruct (IH w1) as (made2 & Hcopies2 & Hprefix2 & Hall2).
      exists (expected x ++ made2). rewrite Hcopies2, Hcopies1, (Hall1 eq_refl), app_assoc.
      split; [done|]. split; [by apply prefix_app|].
      intros Hret. by rewrite (Hall2 Hret).
    + exists made1. split; [done|]. split; [by apply prefix_app_r|done].
Qed.

(** C10.  One turn of the main loop copies nothing for a Python version other
    than [3.7]; for [3.7], when the turn completes, it has made one copy: of
    the lock file frozen for that version and the platform, to
    [environment-{platform}.lock] beside [environment.yml], which then holds
    what the lock file holds.  A run of the script makes these copies in the
    order of its turns: all of them, for the Python versions it is given and
    both platforms, when it completes, and the first of them when it raises;
    so a run for versions other than [3.7] copies nothing. *)
Theorem copy_for_default_python_only (py platform : string) (argv : list string) (w : world) :
  (let r := iteration py platform w in
   (py ≠ "3.7" → copies (trace (snd r)) = copies (trace w)) ∧
   (py = "3.7" → fst r = Return tt →
    ∃ formatted target content,
      format (HERE_join "environment.py-{py}.yml") "py" py = Return formatted ∧
      format (splitext0 (HERE_join "environment.yml") +:+ "-{platform}.lock")
        "platform" platform = Return target ∧
      let frozen_file := Path (splitext0 (Path formatted) +:+ ("-" +:+ platform +:+ ".lock")) in
      copies (trace (snd r)) = copies (trace w) ++ [(frozen_file, target)] ∧
      files (snd r) !! frozen_file = Some content ∧
      files (snd r) !! target = Some content)) ∧
  (let r := main argv w in
   (∃ made,
      copies (trace (snd r)) = copies (trace w) ++ made ∧
      made `prefix_of` copies_of_run argv ∧
      (fst r = Return tt → made = copies_of_run argv)) ∧
   (argv ≠ [] → "3.7" ∉ argv → copies (trace (snd r)) = copies (trace w))).
Proof.
  split; [split; [apply iteration_copies_nothing|]|split].
  - intros -> . unfold iteration, bind, lift, ENV_FILE_T, FROZEN_FILE_T, ENV_FILE.
    destruct (format (HERE_join "environment.py-{py}.yml") "py" "3.7") as [formatted|e];
      [|done].
    destruct (set_python (Path formatted) "3.7" w) as [[[]|e] w1] eqn:Hset;
      pose proof (set_python_copies (Path formatted) "3.7" w) as Hw1;
      rewrite Hset in Hw1; simpl in Hw1; [|done].
    match goal with |- context [freeze ?e ?f ?p w1] =>
      destruct (freeze e f p w1) as [[[]|e'] w2] eqn:Hfreeze;
      pose proof (freeze_copies e f p w1) as Hw2
    end; rewrite Hfreeze in Hw2; simpl in Hw2; [|done].
    rewrite decide_True by done.
    destruct (format _ "platform" platform) as [target|e]; [|done].
    unfold shutil_copy.
    destruct (files w2 !! _) as [content|] eqn:Hsrc; [|done].
    destruct (decide (_ = target)) as [|Hne]; [done|]. simpl. intros _.
    exists formatted, target, content. split; [done|]. split; [done|]. simpl.
    split; [|split].
    + rewrite copies_app. simpl. congruence.
    + by rewrite lookup_insert_ne.
    + apply lookup_insert_eq.
  - unfold main, bind, lift, copies_of_run.
    destruct (platform_args argv) as [Hpy Hplatform]. rewrite Hpy.
    apply for_each_copies_prefix. intros py' w'. rewrite Hplatform.
    apply for_each_copies_prefix. intros platform' w''. apply iteration_copies.
  - intros Hargv Hno. unfold main, bind, lift.
    destruct (platform_args argv) as [Hpy Hplatform].
    rewrite Hpy. destruct argv as [|arg argv]; [done|].
    apply for_each_copies. intros py' w' Hin.
    rewrite Hplatform. apply for_each_copies. intros platform' w'' _.
    apply iteration_copies_nothing. intros ->. done.
Qed.

End Claims.

(** * The claims on examples *)

Section Examples.
#[local] Existing Instance Demo.runtime.

(** Evaluates a closed goal. *)
Ltac evaluate := vm_compute; first [reflexivity | done].

(** Proves two closed values different. *)
Ltac differ :=
  match goal with
  | |- ?x ≠ ?y => apply (bool_decide_eq_false_1 (x = y)); vm_compute; reflexivity
  end.

(** *** C1 *)

(** The lock file beside the script is written by hand, and [freeze] is
    given its path from [HERE]. *)
Lemma refusal_touches_nothing_witness :
  generated Demo.by_hand = false ∧
  files Demo.lock_by_hand !! HERE_join "environment.lock" = Some Demo.by_hand ∧
  relative_to_HERE "environment.lock" = None ∧
  fst (freeze "/repo/environment.yml" "environment.lock" "linux-64" Demo.lock_by_hand)
    = Raise ValueError ∧
  files (snd (freeze "/repo/environment.yml" "environment.lock" "linux-64" Demo.lock_by_hand))
    = files Demo.lock_by_hand ∧
  set_python "/repo/environment.lock" "3.9" Demo.lock_by_hand
    = (Return tt, Demo.lock_by_hand).
Proof.
  destruct (refusal_touches_nothing
              "/repo/environment.lock" "3.9"
              "/repo/environment.yml" "environment.lock"
              "linux-64" Demo.by_hand Demo.lock_by_hand eq_refl) as [Hset Hfreeze].
  split; [reflexivity|]. split; [evaluate|]. split; [reflexivity|].
  destruct (Hfreeze ltac:(evaluate)) as (Hr & Hfiles & _).
  split; [exact Hr|]. split; [exact Hfiles|]. apply Hset. evaluate.
Defined.

(** Below [HERE] the refusal returns. *)
Example freeze_refusal_returns_below_HERE :
  fst (freeze "/repo/environment.py-3.9.yml" "/repo/environment.py-3.9-linux-64.lock"
         "linux-64" Demo.kept_by_hand) = Return tt ∧
  files (snd (freeze "/repo/environment.py-3.9.yml" "/repo/environment.py-3.9-linux-64.lock"
                "linux-64" Demo.kept_by_hand)) = files Demo.kept_by_hand.
Proof. split; evaluate. Qed.

(** A hand-written lock file that is not below [HERE]: [freeze] does not
    return, it raises ValueError. *)
Example freeze_refusal_raises_outside_HERE :
  files Demo.lock_elsewhere !! HERE_join "/srv/environment.lock" = Some Demo.by_hand ∧
  generated Demo.by_hand = false ∧
  fst (freeze "/repo/environment.yml" "/srv/environment.lock" "linux-64" Demo.lock_elsewhere)
    = Raise ValueError.
Proof. split; [evaluate|]. split; evaluate. Qed.

(** *** C2 *)

Lemma marker_permits_overwriting_witness :
  files Demo.run_before !! "/repo/environment.py-3.9.yml" = Some Demo.written_earlier ∧
  generated Demo.written_earlier = true ∧
  set_python "/repo/environment.py-3.9.yml" "3.9" Demo.run_before
    = regenerate "/repo/environment.py-3.9.yml" "3.9" Demo.run_before ∧
  files Demo.kept_by_hand !! "/repo/environment.py-3.9.yml" = Some Demo.by_hand ∧
  generated Demo.by_hand = false ∧
  files (snd (set_python "/repo/environment.py-3.9.yml" "3.9" Demo.kept_by_hand))
    !! "/repo/environment.py-3.9.yml" = Some Demo.by_hand.
Proof.
  split; [evaluate|]. split; [evaluate|]. split.
  - destruct (marker_permits_overwriting
                "/repo/environment.py-3.9.yml" "3.9" "" "" "" Demo.written_earlier
                Demo.run_before) as [Hset _].
    destruct (Hset ltac:(evaluate)) as [Hmarked _].
    exact (proj1 (Hmarked eq_refl)).
  - split; [evaluate|]. split; [evaluate|].
    destruct (marker_permits_overwriting
                "/repo/environment.py-3.9.yml" "3.9" "" "" "" Demo.by_hand
                Demo.kept_by_hand) as [Hset _].
    destruct (Hset ltac:(evaluate)) as [_ Hplain].
    exact (proj1 (Hplain eq_refl)).
Defined.

(** C2 as stated fails both ways: with the marker in its first line the
    target is written anew, and without it the target is kept. *)
Lemma marker_does_not_protect :
  generated Demo.written_earlier = true ∧
  files Demo.run_before !! "/repo/environment.py-3.9.yml" = Some Demo.written_earlier ∧
  files (snd (set_python "/repo/environment.py-3.9.yml" "3.9" Demo.run_before))
    !! "/repo/environment.py-3.9.yml" ≠ Some Demo.written_earlier ∧
  writes (trace (snd (freeze "/repo/environment.py-3.9.yml"
                        "/repo/environment.py-3.9-linux-64.lock" "linux-64" Demo.run_before)))
    ≠ [] ∧
  generated Demo.by_hand = false ∧
  files (snd (set_python "/repo/environment.py-3.9.yml" "3.9" Demo.kept_by_hand))
    !! "/repo/environment.py-3.9.yml" = Some Demo.by_hand ∧
  writes (trace (snd (freeze "/repo/environment.py-3.9.yml"
                        "/repo/environment.py-3.9-linux-64.lock" "linux-64" Demo.kept_by_hand)))
    = [].
Proof.
  split; [evaluate|]. split; [evaluate|]. split.
  { differ. }
  split. { differ. }
  split; [evaluate|]. split; evaluate.
Qed.

(** *** C3 *)

(** A pip section before the dependency on python. *)
Lemma set_python_stops_at_a_section_witness :
  overwritable (files Demo.pip_before_python) "/repo/environment.py-3.9.yml" = true ∧
  files Demo.pip_before_python !! ENV_FILE = Some Demo.pip_before_python_yml ∧
  yaml_load (Text.read Demo.pip_before_python_yml)
    = Return (Manifest [Map [("pip", Scalar "null")]; Str "python=3.7"] []) ∧
  pins_python (Str "python=3.7") ∧
  fst (set_python "/repo/environment.py-3.9.yml" "3.9" Demo.pip_before_python)
    = Raise AttributeError ∧
  files (snd (set_python "/repo/environment.py-3.9.yml" "3.9" Demo.pip_before_python))
    = files Demo.pip_before_python ∧
  files Demo.pip_before_python !! "/repo/environment.py-3.9.yml" = None.
Proof.
  split; [evaluate|]. split; [evaluate|]. split; [evaluate|].
  split; [by exists "python=3.7"|].
  destruct (set_python_stops_at_a_section
              "/repo/environment.py-3.9.yml" "3.9" Demo.pip_before_python_yml
              (Manifest [Map [("pip", Scalar "null")]; Str "python=3.7"] [])
              [] [Str "python=3.7"] (Map [("pip", Scalar "null")])
              Demo.pip_before_python
              ltac:(evaluate) ltac:(evaluate) ltac:(evaluate) eq_refl (Forall_nil_2 _)
              ltac:(intros [s Hs]; discriminate Hs)) as (Hr & Hfiles & _).
  split; [exact Hr|]. split; [exact Hfiles|evaluate].
Defined.

(** *** C4 *)

(** A manifest whose only dependency is a pip section has no dependency on
    python, and [set_python] raises AttributeError. *)
Lemma set_python_ValueError_witness :
  overwritable (files Demo.pip_section) "/repo/environment.py-3.9.yml" = true ∧
  files Demo.pip_section !! ENV_FILE = Some Demo.pip_section_yml ∧
  yaml_load (Text.read Demo.pip_section_yml)
    = Return (Manifest [Map [("pip", Scalar "null")]] []) ∧
  fst (set_python "/repo/environment.py-3.9.yml" "3.9" Demo.pip_section)
    = Raise AttributeError ∧
  files (snd (set_python "/repo/environment.py-3.9.yml" "3.9" Demo.pip_section))
    = files Demo.pip_section.
Proof.
  split; [evaluate|]. split; [evaluate|]. split; [evaluate|].
  destruct (set_python_ValueError
              "/repo/environment.py-3.9.yml" "3.9" Demo.pip_section_yml
              (Manifest [Map [("pip", Scalar "null")]] []) Demo.pip_section
              ltac:(evaluate) ltac:(evaluate) ltac:(evaluate)) as (_ & Hattribute & Hraise).
  assert (fst (set_python "/repo/environment.py-3.9.yml" "3.9" Demo.pip_section)
          = Raise AttributeError) as Hr.
  { apply Hattribute. exists [], (Map [("pip", Scalar "null")]), [].
    split; [reflexivity|]. split; [constructor|]. intros [s Hs]. discriminate Hs. }
  split; [exact Hr|]. exact (proj1 (Hraise _ Hr)).
Defined.

(** With strings only and none of them a dependency on python, it is
    ValueError. *)
Example without_python_raises_ValueError :
  fst (set_python "/repo/environment.py-3.9.yml" "3.9" Demo.without_python)
    = Raise ValueError ∧
  files (snd (set_python "/repo/environment.py-3.9.yml" "3.9" Demo.without_python))
    = files Demo.without_python.
Proof. split; evaluate. Qed.

(** A manifest whose only dependency is a pip section has no dependency on
    python, and what [set_python] raises is AttributeError, not ValueError. *)
Example pip_section_raises_AttributeError :
  files Demo.pip_section !! ENV_FILE = Some Demo.pip_section_yml ∧
  yaml_load (Text.read Demo.pip_section_yml)
    = Return (Manifest [Map [("pip", Scalar "null")]] []) ∧
  ¬ Exists pins_python [Map [("pip", Scalar "null")]] ∧
  fst (set_python "/repo/environment.py-3.9.yml" "3.9" Demo.pip_section)
    = Raise AttributeError ∧
  fst (set_python "/repo/environment.py-3.9.yml" "3.9" Demo.pip_section)
    ≠ Raise ValueError.
Proof.
  split; [evaluate|]. split; [evaluate|]. split; [|split].
  - intros Hex. apply Exists_cons in Hex as [(s & Hs & _)|Hex]; [done|].
    by apply Exists_nil in Hex.
  - evaluate.
  - intros Hr. vm_compute in Hr. discriminate.
Qed.

(** *** C5 *)

(** C5.  A file [freeze] writes does not always have the marker: called with
    a manifest that is not below [HERE], [freeze] raises ValueError at line 73
    after it has opened the frozen file at line 71, and the file it has
    written is empty. *)
Theorem freeze_leaves_empty_file_outside_HERE :
  fst (freeze "/srv/environment.yml" "/repo/environment.lock" "linux-64"
         Demo.manifest_elsewhere) = Raise ValueError ∧
  writes (trace (snd (freeze "/srv/environment.yml" "/repo/environment.lock" "linux-64"
                        Demo.manifest_elsewhere)))
    = [("/repo/environment.lock", "")] ∧
  files (snd (freeze "/srv/environment.yml" "/repo/environment.lock" "linux-64"
                Demo.manifest_elsewhere)) !! "/repo/environment.lock" = Some "" ∧
  generated "" = false.
Proof. split; [evaluate|]. split; [evaluate|]. split; evaluate. Qed.

(** *** C6 *)

Lemma freeze_stamps_the_lock_witness :
  overwritable (files Demo.fresh) (HERE_join "/repo/environment.lock") = true ∧
  format (HERE_join "/repo/environment.lock" +:+ ".{platform}") "platform" "linux-64"
    = Return "/repo/environment.lock.linux-64" ∧
  fst (freeze "/repo/environment.yml" "/repo/environment.lock" "linux-64" Demo.fresh)
    = Return tt ∧
  files (snd (freeze "/repo/environment.yml" "/repo/environment.lock" "linux-64" Demo.fresh))
    !! "/repo/environment.lock"
    = Some (("# AUTO GENERATED FROM environment.yml, DO NOT MANUALLY MODIFY" +:+ Demo.NL)
            +:+ ("# Frozen on 1970-01-01 00:00:06 UTC" +:+ Demo.NL)
            +:+ Text.read Demo.locked) ∧
  Text.read Demo.locked = Demo.locked ∧
  files (snd (freeze "/repo/environment.yml" "/repo/environment.lock" "linux-64" Demo.fresh))
    !! "/repo/environment.lock.linux-64" = None.
Proof.
  split; [evaluate|]. split; [evaluate|].
  destruct (freeze_stamps_the_lock
              "/repo/environment.yml" "/repo/environment.lock" "linux-64"
              "environment.yml" "/repo/environment.lock.linux-64" Demo.locked
              (<["/repo/environment.lock.linux-64" := Demo.locked]> (files Demo.fresh)) 6
              Demo.fresh
              ltac:(evaluate) ltac:(evaluate) ltac:(evaluate) ltac:(evaluate)
              ltac:(differ) ltac:(evaluate)) as (Hr & Hdest & Hsame & Htemp & _).
  split; [exact Hr|]. split; [exact Hdest|]. split; [exact (Hsame eq_refl)|exact Htemp].
Defined.

(** *** C7 *)

Lemma freeze_propagates_failure_witness :
  overwritable (files Demo.fresh) (HERE_join "/repo/environment.lock") = true ∧
  run (conda_lock "/repo/missing.yml" (HERE_join "/repo/environment.lock" +:+ ".{platform}")
         "linux-64") (files Demo.fresh) (clock Demo.fresh)
    = Exited 1 (files Demo.fresh) 6 ∧
  fst (freeze "/repo/missing.yml" "/repo/environment.lock" "linux-64" Demo.fresh)
    = Raise (CalledProcessError 1) ∧
  files (snd (freeze "/repo/missing.yml" "/repo/environment.lock" "linux-64" Demo.fresh))
    = files Demo.fresh.
Proof.
  split; [evaluate|]. split; [evaluate|].
  destruct (freeze_propagates_failure
              "/repo/missing.yml" "/repo/environment.lock" "linux-64"
              "/repo/environment.lock.linux-64" 1 (files Demo.fresh) 6 Demo.fresh
              ltac:(evaluate) ltac:(evaluate) ltac:(evaluate) ltac:(done))
    as (Hr & Hfiles & _).
  split; [exact Hr|exact Hfiles].
Defined.

(** *** C9 *)

Lemma absent_target_is_regenerated_witness :
  files Demo.fresh !! "/repo/environment.py-3.9.yml" = None ∧
  set_python "/repo/environment.py-3.9.yml" "3.9" Demo.fresh
    = regenerate "/repo/environment.py-3.9.yml" "3.9" Demo.fresh ∧
  files Demo.fresh !! HERE_join "/repo/environment.py-3.9-linux-64.lock" = None ∧
  freeze "/repo/environment.yml" "/repo/environment.py-3.9-linux-64.lock" "linux-64" Demo.fresh
    = refreeze "/repo/environment.yml" "/repo/environment.py-3.9-linux-64.lock" "linux-64"
        Demo.fresh.
Proof.
  destruct (absent_target_is_regenerated
              "/repo/environment.py-3.9.yml" "3.9" "/repo/environment.yml"
              "/repo/environment.py-3.9-linux-64.lock" "linux-64" Demo.fresh)
    as [Hset Hfreeze].
  split; [evaluate|]. split; [exact (proj1 (Hset ltac:(evaluate)))|].
  split; [evaluate|]. exact (proj1 (Hfreeze ltac:(evaluate))).
Defined.

(** C9 as stated fails: with no dependency on python in the manifest,
    [set_python] raises and the target that did not exist is not created. *)
Lemma absent_target_is_not_created :
  files Demo.without_python !! "/repo/environment.py-3.9.yml" = None ∧
  fst (set_python "/repo/environment.py-3.9.yml" "3.9" Demo.without_python)
    = Raise ValueError ∧
  files (snd (set_python "/repo/environment.py-3.9.yml" "3.9" Demo.without_python))
    !! "/repo/environment.py-3.9.yml" = None.
Proof. split; [evaluate|]. split; evaluate. Qed.

(** *** C10 *)

Lemma copy_for_default_python_only_witness :
  fst (main ["3.7"] Demo.fresh) = Return tt ∧
  copies (trace (snd (main ["3.7"] Demo.fresh))) =
    [("/repo/environment.py-3.7-linux-64.lock", "/repo/environment-linux-64.lock");
     ("/repo/environment.py-3.7-linux-aarch64.lock", "/repo/environment-linux-aarch64.lock")] ∧
  fst (iteration "3.7" "linux-64" Demo.fresh) = Return tt ∧
  (∃ formatted target content,
     format (HERE_join "environment.py-{py}.yml") "py" "3.7" = Return formatted ∧
     format (splitext0 (HERE_join "environment.yml") +:+ "-{platform}.lock")
       "platform" "linux-64" = Return target ∧
     let frozen_file := Path (splitext0 (Path formatted) +:+ ("-" +:+ "linux-64" +:+ ".lock")) in
     copies (trace (snd (iteration "3.7" "linux-64" Demo.fresh)))
       = copies (trace Demo.fresh) ++ [(frozen_file, target)] ∧
     files (snd (iteration "3.7" "linux-64" Demo.fresh)) !! frozen_file = Some content ∧
     files (snd (iteration "3.7" "linux-64" Demo.fresh)) !! target = Some content) ∧
  "3.9" ≠ "3.7" ∧
  copies (trace (snd (iteration "3.9" "linux-64" Demo.fresh))) = copies (trace Demo.fresh) ∧
  copies (trace (snd (main ["3.9"; "3.8"] Demo.fresh))) = copies (trace Demo.fresh).
Proof.
  assert (fst (main ["3.7"] Demo.fresh) = Return tt) as Hrun by evaluate.
  assert (fst (iteration "3.7" "linux-64" Demo.fresh) = Return tt) as Hr by evaluate.
  assert ("3.9" ≠ "3.7") as Hne by done.
  destruct (copy_for_default_python_only "3.7" "linux-64" ["3.7"] Demo.fresh)
    as [[_ Hdefault] [(made & Hcopies & _ & Hall) _]].
  destruct (copy_for_default_python_only "3.9" "linux-64" ["3.9"; "3.8"] Demo.fresh)
    as [[Hother _] [_ Hnone]].
  split; [exact Hrun|]. split.
  { rewrite Hcopies, (Hall Hrun). reflexivity. }
  split; [exact Hr|]. split; [exact (Hdefault eq_refl Hr)|].
  split; [exact Hne|]. split; [exact (Hother Hne)|].
  apply Hnone; [done|]. intros Hin. vm_compute in Hin.
  apply list_elem_of_In in Hin. simpl in Hin.
  destruct Hin as [Heq|[Heq|[]]]; discriminate Heq.
Defined.

(** The copy of the example goes to the lock path of the platform. *)
Example copy_of_the_example :
  copies (trace (snd (iteration "3.7" "linux-64" Demo.fresh)))
    = [("/repo/environment.py-3.7-linux-64.lock", "/repo/environment-linux-64.lock")].
Proof. evaluate. Qed.

(** *** C8 *)

(** [freeze.py 3.9 linux-aarch64]: the platform is taken for a Python version,
    and both default platforms are frozen. *)
Example platform_on_the_command_line :
  parse_args ["3.9"; "linux-aarch64"]
    = [("py", ["3.9"; "linux-aarch64"]); ("platform", ["linux-64"; "linux-aarch64"])].
Proof. reflexivity. Qed.

End Examples.

Section LineEnds.
#[local] Existing Instance Demo.with_CR_conda.

Ltac evaluate := vm_compute; first [reflexivity | done].

Ltac differ :=
  match goal with
  | |- ?x ≠ ?y => apply (bool_decide_eq_false_1 (x = y)); vm_compute; reflexivity
  end.

(** A temporary file whose line ends in CR LF does not reach the frozen file
    unchanged: the frozen file has the line with LF. *)
Lemma freeze_turns_CR_LF_into_LF :
  run (conda_lock "/repo/environment.yml" "/repo/environment.lock.{platform}" "linux-64")
      (files Demo.fresh) (clock Demo.fresh)
    = Exited 0 (<["/repo/environment.lock.linux-64" := Demo.locked_with_CR]>
                  (files Demo.fresh)) 6 ∧
  Demo.locked_with_CR = "@EXPLICIT" +:+ String Text.CR (String Text.LF "") ∧
  fst (freeze "/repo/environment.yml" "/repo/environment.lock" "linux-64" Demo.fresh)
    = Return tt ∧
  files (snd (freeze "/repo/environment.yml" "/repo/environment.lock" "linux-64" Demo.fresh))
    !! "/repo/environment.lock"
    = Some (("# AUTO GENERATED FROM environment.yml, DO NOT MANUALLY MODIFY" +:+ Demo.NL)
            +:+ ("# Frozen on 1970-01-01 00:00:06 UTC" +:+ Demo.NL)
            +:+ ("@EXPLICIT" +:+ Demo.NL)) ∧
  files (snd (freeze "/repo/environment.yml" "/repo/environment.lock" "linux-64" Demo.fresh))
    !! "/repo/environment.lock"
    ≠ Some (("# AUTO GENERATED FROM environment.yml, DO NOT MANUALLY MODIFY" +:+ Demo.NL)
            +:+ ("# Frozen on 1970-01-01 00:00:06 UTC" +:+ Demo.NL)
            +:+ Demo.locked_with_CR).
Proof.
  split; [evaluate|]. split; [reflexivity|]. split; [evaluate|]. split; [evaluate|].
  differ.
Qed.

End LineEnds.

(** * More on the code *)

(** ** What counts as the marker and as the python dependency *)

Section Lines.
#[local] Arguments String.append !_ _ / : simpl nomatch.









End Lines.

Section More.
Context `{Runtime}.

(** ** More on set_python *)

(** X3.  When [set_python] goes on to regenerate, each of these makes it
    raise before it opens its target: a missing [environment.yml]
    (FileNotFoundError), an exception of [yaml.load] or of the look-up of the
    dependencies, and an exception of the search for the python dependency,
    each raised as it is.  No file is changed and nothing is written. *)
Theorem set_python_fails_before_writing (py_env_file py : string) (w : world) :
  let r := set_python py_env_file py w in
  overwritable (files w) py_env_file = true →
  (files w !! ENV_FILE = None →
   fst r = Raise FileNotFoundError ∧ files (snd r) = files w ∧
   writes (trace (snd r)) = writes (trace w)) ∧
  (∀ text e,
     files w !! ENV_FILE = Some text →
     yaml_load (Text.read text) = Raise e →
     fst r = Raise e ∧ files (snd r) = files w ∧
     writes (trace (snd r)) = writes (trace w)) ∧
  (∀ text env e,
     files w !! ENV_FILE = Some text →
     yaml_load (Text.read text) = Return env →
     find_python 0 (dependencies env) = Raise e →
     fst r = Raise e ∧ files (snd r) = files w ∧
     writes (trace (snd r)) = writes (trace w)).
Proof.
  intros r Hover. subst r. rewrite set_python_run, Hover, regenerate_run; simpl.
  split; [|split].
  - intros ->. simpl. by rewrite writes_app, app_nil_r.
  - intros text e -> ->. simpl. by rewrite writes_app, app_nil_r.
  - intros text env e -> -> ->. simpl. by rewrite writes_app, app_nil_r.
Qed.

(** X4.  [set_python] changes no file but its target, runs no command, copies
    nothing and leaves no file open, whether it returns or raises. *)
Theorem set_python_touches_only_target (py_env_file py : string) (w : world) :
  let r := set_python py_env_file py w in
  (∀ q, q ≠ py_env_file → files (snd r) !! q = files w !! q) ∧
  commands (trace (snd r)) = commands (trace w) ∧
  copies (trace (snd r)) = copies (trace w) ∧
  (∀ q, handles w !! q = None → handles (snd r) !! q = None).
Proof.
  simpl. rewrite set_python_run. destruct (overwritable _ _); [|done].
  rewrite regenerate_run; simpl.
  destruct (files w !! ENV_FILE) as [text|]; simpl;
    [|by rewrite commands_app, copies_app, !app_nil_r].
  destruct (yaml_load (Text.read text)) as [env|e]; simpl;
    [|by rewrite commands_app, copies_app, !app_nil_r].
  destruct (find_python 0 (dependencies env)) as [idx|e]; simpl;
    [|by rewrite commands_app, copies_app, !app_nil_r].
  rewrite commands_app, copies_app, !app_nil_r.
  split; [|split; [done|split; [done|]]].
  - intros q Hq. by rewrite lookup_insert_ne.
  - intros q Hq. rewrite lookup_delete. by case_decide.
Qed.

(** X5.  [set_python] never changes whether its target may be overwritten: a
    target that somebody wrote stays as it is, and a target that is created
    or regenerated has the marker, so a later run regenerates it again. *)
Theorem set_python_keeps_overwritable (py_env_file py : string) (w : world) :
  overwritable (files (snd (set_python py_env_file py w))) py_env_file
    = overwritable (files w) py_env_file.
Proof.
  rewrite set_python_run. destruct (overwritable (files w) py_env_file) eqn:Hover; [|done].
  destruct (regenerate_writes py_env_file py w) as [Hret Hraise].
  destruct (fst (regenerate py_env_file py w)) as [[]|e] eqn:Hr.
  - destruct (Hret eq_refl) as (text & Hgen & Htext & _).
    unfold overwritable. by rewrite Htext.
  - destruct (Hraise e eq_refl) as [-> _]. done.
Qed.

(** What [set_python] returns and the files it leaves depend on the files and
    the clock only. *)
Lemma set_python_same_files (py_env_file py : string) (w1 w2 : world) :
  files w1 = files w2 → clock w1 = clock w2 →
  fst (set_python py_env_file py w1) = fst (set_python py_env_file py w2) ∧
  files (snd (set_python py_env_file py w1)) = files (snd (set_python py_env_file py w2)).
Proof.
  intros Hfiles Hclock. rewrite !set_python_run, !regenerate_run; simpl.
  rewrite Hfiles, Hclock. destruct (overwritable _ _); [|done].
  destruct (files w2 !! ENV_FILE) as [text|]; simpl; [|done].
  destruct (yaml_load (Text.read text)) as [env|e]; simpl; [|done].
  by destruct (find_python 0 (dependencies env)).
Qed.

(** X6.  What a call of [set_python] returns and the files it leaves do not
    depend on an earlier call for the same target (other than
    [environment.yml] itself): the version set last wins, and setting the
    same version again at the same time changes nothing. *)
Theorem set_python_last_wins (py_env_file py1 py2 : string) (w : world) :
  py_env_file ≠ ENV_FILE →
  let w1 := snd (set_python py_env_file py1 w) in
  fst (set_python py_env_file py2 w1) = fst (set_python py_env_file py2 w) ∧
  files (snd (set_python py_env_file py2 w1)) = files (snd (set_python py_env_file py2 w)).
Proof.
  intros Hne w1. subst w1.
  rewrite (set_python_run py_env_file py1 w).
  destruct (overwritable (files w) py_env_file) eqn:Hover; [|done].
  rewrite regenerate_run; simpl.
  destruct (files w !! ENV_FILE) as [text|] eqn:Hfile; simpl;
    [|by apply set_python_same_files].
  destruct (yaml_load (Text.read text)) as [env|e] eqn:Hload; simpl;
    [|by apply set_python_same_files].
  destruct (find_python 0 (dependencies env)) as [idx|e] eqn:Hfind; simpl;
    [|by apply set_python_same_files].
  rewrite !set_python_run, !regenerate_run, Hover; simpl.
  unfold overwritable. rewrite lookup_insert_eq.
  unfold manifest_text at 1, generated_text at 1. rewrite generated_from_generated.
  rewrite lookup_insert_ne, Hfile, Hload, Hfind by done; simpl.
  by rewrite insert_insert_eq.
Qed.

(** X7.  The index the search breaks at is within the list and is of a
    dependency on python, so the assignment of line 96 never fails; it changes
    that one entry, keeps the length of the list, and the search on the
    changed list breaks at the same index. *)
Theorem find_python_in_bounds (deps : list node) (idx : nat) (py : string) :
  find_python 0 deps = Return idx →
  let deps' := <[idx := Str ("python=" +:+ py +:+ ".*")]> deps in
  idx < length deps ∧
  (∃ dep, deps !! idx = Some dep ∧ pins_python dep) ∧
  length deps' = length deps ∧
  deps' !! idx = Some (Str ("python=" +:+ py +:+ ".*")) ∧
  (∀ j, j ≠ idx → deps' !! j = deps !! j) ∧
  find_python 0 deps' = Return idx.
Proof.
  intros Hfind. apply find_python_Return in Hfind
    as (pre & dep & post & -> & Hpre & Hdep & ->). simpl.
  rewrite insert_found, !length_app. simpl.
  split; [lia|]. split; [|split; [done|split; [|split]]].
  - exists (Str dep). split; [by apply list_lookup_middle|by exists dep].
  - by apply list_lookup_middle.
  - intros j Hj. destruct (decide (j < length pre)) as [Hlt|Hge].
    + by rewrite !lookup_app_l.
    + rewrite !lookup_app_r by lia.
      destruct (j - length pre) as [|k] eqn:Hk; [lia|done].
  - by rewrite (find_python_found 0 pre _ post Hpre).
Qed.


(** X16.  When [set_python] returns, its target exists: it is the manifest
    just written, with the marker, or the file that was there and was kept. *)
Theorem set_python_returns_with_target (py_env_file py : string) (w : world) :
  let r := set_python py_env_file py w in
  fst r = Return tt →
  ∃ content, files (snd r) !! py_env_file = Some content ∧
             (generated content = true ∨
              (generated content = false ∧ files w !! py_env_file = Some content)).
Proof.
  simpl. rewrite set_python_run. unfold overwritable.
  destruct (files w !! py_env_file) as [content|] eqn:Hfile.
  - destruct (generated content) eqn:Hgen.
    + intros Hret. destruct (regenerate_writes py_env_file py w) as [Hwrites _].
      destruct (Hwrites Hret) as (text & Htext & Hlookup & _).
      exists text. split; [done|by left].
    + intros _. exists content. split; [done|by right].
  - intros Hret. destruct (regenerate_writes py_env_file py w) as [Hwrites _].
    destruct (Hwrites Hret) as (text & Htext & Hlookup & _).
    exists text. split; [done|by left].
Qed.

(** ** More on freeze *)

(** X9.  Whatever its outcome, [freeze] runs at most one command, the
    conda-lock command line of its arguments, copies nothing and leaves no
    file open; and apart from the frozen file and the temporary file, every
    file is as it was or as conda-lock left it. *)
Theorem freeze_touches_only_its_files (env_file frozen_file platform : string) (w : world) :
  let frozen_dest := HERE_join frozen_file in
  let frozen_template := frozen_dest +:+ ".{platform}" in
  let argv := conda_lock env_file frozen_template platform in
  let r := freeze env_file frozen_file platform w in
  copies (trace (snd r)) = copies (trace w) ∧
  (commands (trace (snd r)) = commands (trace w) ∨
   commands (trace (snd r)) = commands (trace w) ++ [argv]) ∧
  (∀ q, handles w !! q = None → handles (snd r) !! q = None) ∧
  ∃ fs,
    (fs = files w ∨ ∃ status now, run argv (files w) (clock w) = Exited status fs now) ∧
    ∀ q, q ≠ frozen_dest →
         (∀ formatted, format frozen_template "platform" platform = Return formatted →
                       q ≠ Path formatted) →
         files (snd r) !! q = fs !! q.
Proof.
  intros frozen_dest frozen_template argv r. subst r.
  split; [apply freeze_copies|].
  rewrite freeze_run. fold frozen_dest.
  destruct (overwritable (files w) frozen_dest).
  - rewrite refreeze_run; simpl. fold frozen_dest frozen_template argv.
    destruct (format frozen_template "platform" platform) as [formatted|e'] eqn:Hformat;
      simpl.
    2:{ rewrite commands_app, app_nil_r. split; [by left|]. split; [done|].
        exists (files w). split; [by left|done]. }
    destruct (run argv (files w) (clock w)) as [|status fs now] eqn:Hrun; simpl.
    { rewrite !commands_app, app_nil_r. split; [by right|]. split; [done|].
      exists (files w). split; [by left|done]. }
    assert (∀ q, handles w !! q = None → delete frozen_dest (handles w) !! q = None)
      as Hhandles.
    { intros q Hq. rewrite lookup_delete. by case_decide. }
    destruct (decide (status = 0%Z)) as [->|Hstatus]; simpl.
    2:{ rewrite commands_app. split; [by right|]. split; [done|].
        exists fs. split; [right; by exists status, now|done]. }
    destruct (relative_to_HERE env_file) as [rel|]; simpl.
    2:{ rewrite commands_app. split; [by right|]. split; [done|].
        exists fs. split; [right; by exists 0%Z, now|].
        intros q Hq _. by rewrite lookup_insert_ne. }
    destruct (<[frozen_dest:=""]> fs !! Path formatted) as [temp|]; simpl;
      rewrite commands_app; (split; [by right|]); (split; [done|]);
      exists fs; (split; [right; by exists 0%Z, now|]); intros q Hq Hq'.
    + rewrite lookup_delete_ne by (intros Heq; by apply (Hq' formatted)).
      by rewrite lookup_insert_ne.
    + by rewrite lookup_insert_ne.
  - destruct (relative_to_HERE frozen_file); simpl;
      rewrite ?commands_app, ?app_nil_r; (split; [by left|]); (split; [done|]);
      exists (files w); (split; [by left|done]).
Qed.



(** X12.  When the path of the temporary file cannot be formatted, [freeze]
    raises before it runs conda-lock; when conda-lock cannot be started, it
    raises FileNotFoundError.  In both cases no file is changed or written. *)
Theorem freeze_fails_before_writing (env_file frozen_file platform : string) (w : world) :
  let frozen_dest := HERE_join frozen_file in
  let frozen_template := frozen_dest +:+ ".{platform}" in
  let r := freeze env_file frozen_file platform w in
  overwritable (files w) frozen_dest = true →
  (∀ e, format frozen_template "platform" platform = Raise e →
        fst r = Raise e ∧ files (snd r) = files w ∧
        commands (trace (snd r)) = commands (trace w)) ∧
  (∀ formatted,
     format frozen_template "platform" platform = Return formatted →
     run (conda_lock env_file frozen_template platform) (files w) (clock w) = NotStarted →
     fst r = Raise FileNotFoundError ∧ files (snd r) = files w ∧
     writes (trace (snd r)) = writes (trace w)).
Proof.
  intros frozen_dest frozen_template r Hover. subst r.
  rewrite freeze_run. fold frozen_dest. rewrite Hover, refreeze_run; simpl.
  fold frozen_dest frozen_template. split.
  - intros e ->. simpl. by rewrite commands_app, app_nil_r.
  - intros formatted -> ->. simpl. by rewrite !writes_app, !app_nil_r.
Qed.

(** X13.  A [freeze] that returns never changes whether the frozen file may
    be overwritten: a file somebody wrote is kept, and a file that is frozen
    has the marker, so it can be frozen again. *)
Theorem freeze_keeps_overwritable (env_file frozen_file platform : string) (w : world) :
  let r := freeze env_file frozen_file platform w in
  fst r = Return tt →
  overwritable (files (snd r)) (HERE_join frozen_file)
    = overwritable (files w) (HERE_join frozen_file).
Proof.
  simpl. rewrite freeze_run.
  destruct (overwritable (files w) (HERE_join frozen_file)) eqn:Hover.
  - rewrite refreeze_run; simpl.
    destruct (format _ _ _) as [formatted|e]; simpl; [|done].
    destruct (run _ _ _) as [|status fs now]; simpl; [done|].
    destruct (decide (status = 0%Z)); simpl; [|done].
    destruct (relative_to_HERE env_file) as [rel|]; simpl; [|done].
    destruct (_ !! Path formatted) as [temp|]; simpl; [|done].
    intros _. unfold overwritable. rewrite lookup_delete. case_decide; [done|].
    rewrite lookup_insert_eq. unfold frozen_text, frozen_head.
    rewrite append_assoc. apply generated_from_generated.
  - destruct (relative_to_HERE frozen_file); simpl; [|done]. by intros _.
Qed.

(** X18.  Every file [set_python] writes is its target and is written with
    the marker in its first line.  So is every file [freeze] writes, when
    [env_file] is a path below [HERE]. *)
Theorem written_files_have_marker
    (py_env_file py env_file frozen_file platform : string) (w : world) :
  (let r := set_python py_env_file py w in
   ∃ ws, writes (trace (snd r)) = writes (trace w) ++ ws ∧
         Forall (λ pt, pt.1 = py_env_file ∧ generated pt.2 = true) ws) ∧
  (is_Some (relative_to_HERE env_file) →
   let r := freeze env_file frozen_file platform w in
   ∃ ws, writes (trace (snd r)) = writes (trace w) ++ ws ∧
         Forall (λ pt, pt.1 = HERE_join frozen_file ∧ generated pt.2 = true) ws).
Proof.
  split.
  - simpl. rewrite set_python_run.
    destruct (overwritable _ _); [|exists []; by rewrite app_nil_r].
    destruct (regenerate_writes py_env_file py w) as [Hret Hraise].
    destruct (fst (regenerate py_env_file py w)) as [[]|e] eqn:E.
    + destruct (Hret eq_refl) as (text & Hgen & _ & ->).
      exists [(py_env_file, text)]. split; [done|]. by repeat constructor.
    + destruct (Hraise e eq_refl) as [_ ->].
      exists []. by rewrite app_nil_r.
  - intros [rel Hrel]. simpl. rewrite freeze_run.
    destruct (overwritable _ _).
    + rewrite refreeze_run; simpl. rewrite Hrel.
      destruct (format _ _ _) as [formatted|e]; simpl;
        [|exists []; by rewrite writes_app, !app_nil_r].
      destruct (run _ _ _) as [|status fs now]; simpl;
        [exists []; by rewrite !writes_app, !app_nil_r|].
      destruct (decide (status = 0%Z)); simpl;
        [|exists []; by rewrite !writes_app, !app_nil_r].
      destruct (_ !! Path formatted) as [temp|]; simpl; rewrite writes_app; simpl;
        eexists; (split; [done|]); by repeat constructor.
    + destruct (relative_to_HERE frozen_file); simpl;
        exists []; by rewrite ?writes_app, !app_nil_r.
Qed.

(** ** More on the main loop *)

Lemma for_each_app {A : Type} (xs ys : list A) (body : A → script unit) (w : world) :
  for_each (xs ++ ys) body w = bind (for_each xs body) (λ _, for_each ys body) w.
Proof.
  revert w. induction xs as [|x xs IH]; intros w; [done|].
  simpl. unfold bind in *. destruct (body x w) as [[[]|e] w1]; [apply IH|done].
Qed.

Lemma for_each_Raise {A : Type} (x : A) (xs : list A) (body : A → script unit)
    (w w' : world) (e : exn) :
  body x w = (Raise e, w') → for_each (x :: xs) body w = (Raise e, w').
Proof. intros Hx. simpl. unfold bind. by rewrite Hx. Qed.

Lemma for_each_Return {A : Type} (xs ys : list A) (body : A → script unit) (w w1 : world) :
  for_each xs body w = (Return tt, w1) →
  for_each (xs ++ ys) body w = for_each ys body w1.
Proof. intros Hxs. rewrite for_each_app. unfold bind. by rewrite Hxs. Qed.

(** X14.  A turn of the main loop that raises, for either platform, ends
    the script with that exception, in the world that turn left: what the
    turns before it wrote stays, and no later Python version is processed. *)
Theorem loop_stops_at_first_failure
    (done_before : list string) (py : string) (later : list string)
    (w w1 w2 : world) (e : exn) :
  (done_before = [] ∧ w1 = w) ∨
  (done_before ≠ [] ∧ main done_before w = (Return tt, w1)) →
  iteration py "linux-64" w1 = (Raise e, w2) ∨
  (∃ w', iteration py "linux-64" w1 = (Return tt, w') ∧
         iteration py "linux-aarch64" w' = (Raise e, w2)) →
  main (done_before ++ py :: later) w = (Raise e, w2).
Proof.
  intros Hbefore Hturn.
  assert (∀ argv, argv ≠ [] →
            main argv w =
              for_each argv (λ py,
                for_each ["linux-64"; "linux-aarch64"] (λ platform, iteration py platform)) w)
    as Hmain.
  { intros [|arg argv] Hargv; [done|]. reflexivity. }
  assert (for_each ["linux-64"; "linux-aarch64"] (λ platform, iteration py platform) w1
          = (Raise e, w2)) as Hpy.
  { simpl. unfold bind. destruct Hturn as [->|(w' & -> & ->)]; done. }
  rewrite Hmain by (by destruct done_before).
  destruct Hbefore as [[-> ->]|[Hne Hdone]].
  - rewrite app_nil_l. by apply for_each_Raise.
  - rewrite Hmain in Hdone by done.
    rewrite (for_each_Return _ _ _ _ _ Hdone). by apply for_each_Raise.
Qed.

Lemma set_python_commands (py_env_file py : string) (w : world) :
  commands (trace (snd (set_python py_env_file py w))) = commands (trace w).
Proof.
  rewrite set_python_run. destruct (overwritable _ _); [|done].
  rewrite regenerate_run; simpl.
  destruct (files w !! ENV_FILE) as [text|]; simpl;
    [|by rewrite commands_app, app_nil_r].
  destruct (yaml_load (Text.read text)) as [env|e]; simpl; [|by rewrite commands_app, app_nil_r].
  destruct (find_python 0 (dependencies env)) as [idx|e]; simpl;
    by rewrite commands_app, app_nil_r.
Qed.

(** X15.  In a turn of the main loop, a manifest that cannot be regenerated
    stops the turn before conda-lock is run: the turn raises what
    [set_python] raised, with every file as it was and no command run. *)
Theorem manifest_error_stops_the_turn
    (py platform formatted : string) (w : world) (e : exn) :
  format ENV_FILE_T "py" py = Return formatted →
  fst (set_python (Path formatted) py w) = Raise e →
  let r := iteration py platform w in
  fst r = Raise e ∧ files (snd r) = files w ∧
  commands (trace (snd r)) = commands (trace w).
Proof.
  intros Hformat Hset r. subst r. unfold iteration, bind, lift. rewrite Hformat.
  pose proof (set_python_commands (Path formatted) py w) as Hcommands.
  pose proof (regenerate_writes (Path formatted) py w) as [_ Hraise].
  rewrite set_python_run in Hset, Hcommands |- *.
  destruct (overwritable (files w) (Path formatted)); [|done].
  destruct (regenerate (Path formatted) py w) as [[[]|e'] w1]; simpl in *; [done|].
  injection Hset as ->. split; [done|]. split; [|done]. by apply (Hraise e).
Qed.

End More.

(** ** More on examples *)

Section MoreExamples.
#[local] Existing Instance Demo.runtime.

Ltac evaluate := vm_compute; first [reflexivity | done].

Ltac differ :=
  match goal with
  | |- ?x ≠ ?y => apply (bool_decide_eq_false_1 (x = y)); vm_compute; reflexivity
  end.


(** With no [environment.yml], [set_python] raises FileNotFoundError. *)
Lemma set_python_fails_before_writing_witness :
  overwritable (files (Demo.installed [])) "/repo/environment.py-3.9.yml" = true ∧
  files (Demo.installed []) !! ENV_FILE = None ∧
  fst (set_python "/repo/environment.py-3.9.yml" "3.9" (Demo.installed []))
    = Raise FileNotFoundError ∧
  files (snd (set_python "/repo/environment.py-3.9.yml" "3.9" (Demo.installed [])))
    = files (Demo.installed []).
Proof.
  assert (overwritable (files (Demo.installed [])) "/repo/environment.py-3.9.yml" = true)
    as Hover by reflexivity.
  assert (files (Demo.installed []) !! ENV_FILE = None) as Hfile by reflexivity.
  split; [exact Hover|]. split; [exact Hfile|].
  destruct (proj1 (set_python_fails_before_writing
                     "/repo/environment.py-3.9.yml" "3.9" (Demo.installed []) Hover) Hfile)
    as (Hr & Hfiles & _).
  split; [exact Hr|exact Hfiles].
Defined.

Lemma set_python_last_wins_witness :
  "/repo/environment.py-3.9.yml" ≠ ENV_FILE ∧
  files (snd (set_python "/repo/environment.py-3.9.yml" "3.9"
                (snd (set_python "/repo/environment.py-3.9.yml" "3.8" Demo.fresh))))
    = files (snd (set_python "/repo/environment.py-3.9.yml" "3.9" Demo.fresh)).
Proof.
  assert ("/repo/environment.py-3.9.yml" ≠ ENV_FILE) as Hne by differ.
  split; [exact Hne|].
  exact (proj2 (set_python_last_wins "/repo/environment.py-3.9.yml" "3.8" "3.9"
                  Demo.fresh Hne)).
Defined.

Lemma find_python_in_bounds_witness :
  find_python 0 [Str "pip"; Str "python=3.7"; Str "python-dateutil"] = Return 1 ∧
  1 < length [Str "pip"; Str "python=3.7"; Str "python-dateutil"] ∧
  find_python 0 (<[1 := Str ("python=" +:+ "3.9" +:+ ".*")]>
                   [Str "pip"; Str "python=3.7"; Str "python-dateutil"]) = Return 1.
Proof.
  assert (find_python 0 [Str "pip"; Str "python=3.7"; Str "python-dateutil"] = Return 1)
    as Hfind by reflexivity.
  split; [exact Hfind|].
  destruct (find_python_in_bounds _ _ "3.9" Hfind) as (Hlt & _ & _ & _ & _ & Hagain).
  split; [exact Hlt|exact Hagain].
Defined.


Lemma set_python_returns_with_target_witness :
  fst (set_python "/repo/environment.py-3.9.yml" "3.9" Demo.kept_by_hand) = Return tt ∧
  ∃ content,
    files (snd (set_python "/repo/environment.py-3.9.yml" "3.9" Demo.kept_by_hand))
      !! "/repo/environment.py-3.9.yml" = Some content ∧
    (generated content = true ∨
     (generated content = false ∧
      files Demo.kept_by_hand !! "/repo/environment.py-3.9.yml" = Some content)).
Proof.
  assert (fst (set_python "/repo/environment.py-3.9.yml" "3.9" Demo.kept_by_hand)
          = Return tt) as Hr by evaluate.
  split; [exact Hr|].
  exact (set_python_returns_with_target "/repo/environment.py-3.9.yml" "3.9"
           Demo.kept_by_hand Hr).
Defined.


Lemma written_files_have_marker_witness :
  is_Some (relative_to_HERE "/repo/environment.yml") ∧
  ∃ ws,
    writes (trace (snd (freeze "/repo/environment.yml" "/repo/environment.lock" "linux-64"
                          Demo.fresh)))
      = writes (trace Demo.fresh) ++ ws ∧
    Forall (λ pt, pt.1 = HERE_join "/repo/environment.lock" ∧ generated pt.2 = true) ws.
Proof.
  assert (is_Some (relative_to_HERE "/repo/environment.yml")) as Hbelow.
  { by exists "environment.yml". }
  split; [exact Hbelow|].
  exact (proj2 (written_files_have_marker
                  "" "" "/repo/environment.yml" "/repo/environment.lock" "linux-64"
                  Demo.fresh) Hbelow).
Defined.

Lemma freeze_keeps_overwritable_witness :
  fst (freeze "/repo/environment.yml" "/repo/environment.lock" "linux-64" Demo.fresh)
    = Return tt ∧
  overwritable
    (files (snd (freeze "/repo/environment.yml" "/repo/environment.lock" "linux-64"
                   Demo.fresh)))
    (HERE_join "/repo/environment.lock")
    = overwritable (files Demo.fresh) (HERE_join "/repo/environment.lock").
Proof.
  assert (fst (freeze "/repo/environment.yml" "/repo/environment.lock" "linux-64" Demo.fresh)
          = Return tt) as Hr by evaluate.
  split; [exact Hr|].
  exact (freeze_keeps_overwritable "/repo/environment.yml" "/repo/environment.lock"
           "linux-64" Demo.fresh Hr).
Defined.

(** With no python dependency in the manifest the first turn raises, and the
    version after it is not processed. *)
Lemma loop_stops_at_first_failure_witness :
  fst (iteration "3.9" "linux-64" Demo.without_python) = Raise ValueError ∧
  main ["3.9"; "3.7"] Demo.without_python
    = (Raise ValueError, snd (iteration "3.9" "linux-64" Demo.without_python)).
Proof.
  assert (fst (iteration "3.9" "linux-64" Demo.without_python) = Raise ValueError)
    as Hr by evaluate.
  split; [exact Hr|].
  apply (loop_stops_at_first_failure [] "3.9" ["3.7"] Demo.without_python
           Demo.without_python).
  - left. done.
  - left. rewrite (surjective_pairing (iteration "3.9" "linux-64" Demo.without_python)) at 1.
    by rewrite Hr.
Defined.

Lemma manifest_error_stops_the_turn_witness :
  format ENV_FILE_T "py" "3.9" = Return "/repo/environment.py-3.9.yml" ∧
  fst (set_python (Path "/repo/environment.py-3.9.yml") "3.9" Demo.without_python)
    = Raise ValueError ∧
  fst (iteration "3.9" "linux-64" Demo.without_python) = Raise ValueError ∧
  commands (trace (snd (iteration "3.9" "linux-64" Demo.without_python)))
    = commands (trace Demo.without_python).
Proof.
  assert (format ENV_FILE_T "py" "3.9" = Return "/repo/environment.py-3.9.yml")
    as Hformat by evaluate.
  assert (fst (set_python (Path "/repo/environment.py-3.9.yml") "3.9" Demo.without_python)
          = Raise ValueError) as Hset by evaluate.
  split; [exact Hformat|]. split; [exact Hset|].
  destruct (manifest_error_stops_the_turn "3.9" "linux-64" _ Demo.without_python _
              Hformat Hset) as (Hr & _ & Hcommands).
  split; [exact Hr|exact Hcommands].
Defined.

End MoreExamples.

Section IdleConda.
#[local] Existing Instance Demo.with_idle_conda.

Ltac evaluate := vm_compute; first [reflexivity | done].

Ltac differ :=
  match goal with
  | |- ?x ≠ ?y => apply (bool_decide_eq_false_1 (x = y)); vm_compute; reflexivity
  end.


End IdleConda.

Section WithoutConda.
#[local] Existing Instance Demo.without_conda.

Ltac evaluate := vm_compute; first [reflexivity | done].

(** A path with braces in it cannot be formatted; and without conda-lock
    nothing is written. *)
Lemma freeze_fails_before_writing_witness :
  overwritable (files Demo.fresh) (HERE_join "/repo/{env}.lock") = true ∧
  fst (freeze "/repo/environment.yml" "/repo/{env}.lock" "linux-64" Demo.fresh)
    = Raise KeyError ∧
  overwritable (files Demo.fresh) (HERE_join "/repo/environment.lock") = true ∧
  fst (freeze "/repo/environment.yml" "/repo/environment.lock" "linux-64" Demo.fresh)
    = Raise FileNotFoundError ∧
  files (snd (freeze "/repo/environment.yml" "/repo/environment.lock" "linux-64" Demo.fresh))
    = files Demo.fresh.
Proof.
  assert (overwritable (files Demo.fresh) (HERE_join "/repo/{env}.lock") = true)
    as Hbraces by evaluate.
  assert (overwritable (files Demo.fresh) (HERE_join "/repo/environment.lock") = true)
    as Hplain by evaluate.
  split; [exact Hbraces|]. split.
  - exact (proj1 (proj1 (freeze_fails_before_writing
                           "/repo/environment.yml" "/repo/{env}.lock" "linux-64"
                           Demo.fresh Hbraces) KeyError ltac:(evaluate))).
  - split; [exact Hplain|].
    destruct (proj2 (freeze_fails_before_writing
                       "/repo/environment.yml" "/repo/environment.lock" "linux-64"
                       Demo.fresh Hplain) "/repo/environment.lock.linux-64"
                ltac:(evaluate) ltac:(evaluate)) as (Hr & Hfiles & _).
    split; [exact Hr|exact Hfiles].
Defined.

End WithoutConda.
